(** * Lazy xarray readers of the tiled client

    A shallow embedding of [tiled/client/xarray.py]: the variable, data-array
    and dataset readers, each in its deferred (dask) and immediate variant.
    The leaf array readers of [tiled/client/array.py] and the xarray
    containers are outside this file; the former is a parameter of the
    development, the latter are recorded by the arguments their constructors
    receive. *)

From Stdlib Require Import ZArith List Lia.
From stdpp Require Import base option list strings gmap.

Local Open Scope Z_scope.

(** ** Exceptions and the effect of a method call *)

Inductive exn : Type :=
| TypeError
| IndexError
| KeyError
| TransportError (msg : string).

Inductive outcome (A : Type) : Type :=
| Returns (a : A)
| Raises (e : exn).

Arguments Returns {A} a.
Arguments Raises {A} e.

(** ** Python values used by the readers *)

(** One entry of an index expression: [slice(start, stop, step)] or an
    integer.  Neither of them is an [Iterable]. *)
Inductive slice_item : Type :=
| PySlice (start stop step : option Z)
| PyInt (i : Z).

(** [builtins.slice(None, None)] *)
Definition slice_all : slice_item := PySlice None None None.

(** The [slice] argument of [read]: [None], one non-iterable object, or an
    iterable of entries. *)
Inductive slice_arg : Type :=
| SliceNone
| SliceOne (s : slice_item)
| SliceSeq (t : list slice_item).

(** [t[i]] on a tuple, negative indices counted from the end. *)
Definition tuple_getitem {A : Type} (t : list A) (i : Z) : outcome A :=
  let n := Z.of_nat (length t) in
  let j := if i <? 0 then i + n else i in
  if (0 <=? j) && (j <? n)
  then match nth_error t (Z.to_nat j) with
       | Some a => Returns a
       | None => Raises IndexError
       end
  else Raises IndexError.

(** An insertion-ordered [dict] with string keys.  [dict_setitem] is
    [d[k] = v]: an existing key keeps its position. *)
Fixpoint dict_setitem {V : Type} (k : string) (v : V) (d : list (string * V))
  : list (string * V) :=
  match d with
  | [] => [(k, v)]
  | (k', v') :: d' =>
      if String.eqb k k' then (k, v) :: d' else (k', v') :: dict_setitem k v d'
  end.

Fixpoint dict_get {V : Type} (k : string) (d : list (string * V)) : option V :=
  match d with
  | [] => None
  | (k', v') :: d' => if String.eqb k k' then Some v' else dict_get k d'
  end.

Definition dict_keys {V : Type} (d : list (string * V)) : list string :=
  map fst d.

(** [name in columns] for a list of names. *)
Definition name_in (name : string) (columns : list string) : bool :=
  existsb (String.eqb name) columns.

(** [itertools.zip_longest(a, b, fillvalue=...)]: [None] marks a position
    filled with the fill value. *)
Fixpoint zip_longest {A B : Type} (a : list A) (b : list B)
  : list (option A * option B) :=
  match a, b with
  | [], _ => map (fun y => (None, Some y)) b
  | x :: a', [] => (Some x, None) :: zip_longest a' []
  | x :: a', y :: b' => (Some x, Some y) :: zip_longest a' b'
  end.

(** [name in columns] when [columns] is a one-shot iterator (a generator,
    [iter(...)], [map(...)]): the items are consumed up to and including the
    first one equal to [name]; the second component is what is left. *)
Fixpoint iterator_contains (name : string) (columns : list string)
  : bool * list string :=
  match columns with
  | [] => (false, [])
  | x :: columns' =>
      if String.eqb x name then (true, columns')
      else iterator_contains name columns'
  end.

(** The loop of [_build_data_vars] and of [_build_coords] when [columns] is
    a one-shot iterator: every test [name not in columns] consumes it.  The
    loop returns the mapping and what is left of the iterator. *)
Fixpoint build_from_iterator {S V : Type} (make : string -> S -> V)
    (items : list (string * S)) (columns : list string)
    (acc : list (string * V)) : list (string * V) * list string :=
  match items with
  | [] => (acc, columns)
  | (name, s) :: items' =>
      let '(found, columns') := iterator_contains name columns in
      if negb found then build_from_iterator make items' columns' acc
      else
        build_from_iterator make items' columns'
          (dict_setitem name (make name s) acc)
  end.

(** ** Structures ([tiled/containers]) *)

Record Structure (Macro Micro : Type) : Type := mkStructure {
  macro : Macro;
  micro : Micro
}.

Arguments mkStructure {Macro Micro} macro micro.
Arguments macro {Macro Micro} s.
Arguments micro {Macro Micro} s.

Record ArrayMacroStructure : Type := mkArrayMacro {
  chunks : list (list Z);
  shape : list Z
}.

Definition ArrayStructure : Type := Structure ArrayMacroStructure string.

Record VariableMacroStructure : Type := mkVariableMacro {
  dims : list string;
  data : ArrayStructure;
  attrs : gmap string string
}.

Definition VariableStructure : Type := Structure VariableMacroStructure unit.

Record DataArrayMacroStructure : Type := mkDataArrayMacro {
  variable : VariableStructure;
  da_coords : list (string * VariableStructure);
  name : string
}.

Definition DataArrayStructure : Type := Structure DataArrayMacroStructure unit.

Record DatasetMacroStructure : Type := mkDatasetMacro {
  data_vars : list (string * DataArrayStructure);
  ds_coords : list (string * VariableStructure);
  ds_attrs : gmap string string
}.

Definition DatasetStructure : Type := Structure DatasetMacroStructure unit.

(** ** Reader classes and their class attributes *)

Inductive array_reader_class : Type :=
| ClientDaskArrayReader
| ClientArrayReader.

Inductive variable_reader_class : Type :=
| ClientDaskVariableReader
| ClientVariableReader.

Inductive data_array_reader_class : Type :=
| ClientDaskDataArrayReader
| ClientDataArrayReader.

Inductive dataset_reader_class : Type :=
| ClientDaskDatasetReader
| ClientDatasetReader.

Definition ARRAY_READER (c : variable_reader_class) : array_reader_class :=
  match c with
  | ClientDaskVariableReader => ClientDaskArrayReader
  | ClientVariableReader => ClientArrayReader
  end.

Definition VARIABLE_READER (c : data_array_reader_class)
  : variable_reader_class :=
  match c with
  | ClientDaskDataArrayReader => ClientDaskVariableReader
  | ClientDataArrayReader => ClientVariableReader
  end.

Definition DATA_ARRAY_READER (c : dataset_reader_class)
  : data_array_reader_class :=
  match c with
  | ClientDaskDatasetReader => ClientDaskDataArrayReader
  | ClientDatasetReader => ClientDataArrayReader
  end.

Definition DATASET_VARIABLE_READER (c : dataset_reader_class)
  : variable_reader_class :=
  match c with
  | ClientDaskDatasetReader => ClientDaskVariableReader
  | ClientDatasetReader => ClientVariableReader
  end.

Section Readers.

(** The transport handle, the metadata mapping and raw array data are
    opaque to the readers. *)
Context {Client Metadata Raw : Type}.

(** A reader object: its class and what [__init__] stored. *)
Record Reader (C S : Type) : Type := mkReader {
  cls : C;
  _client : Client;
  _path : list string;
  metadata : Metadata;
  _params : gmap string string;
  structure : S;
  _route : string
}.

Arguments mkReader {C S}.
Arguments cls {C S} r.
Arguments _client {C S} r.
Arguments _path {C S} r.
Arguments metadata {C S} r.
Arguments _params {C S} r.
Arguments structure {C S} r.
Arguments _route {C S} r.

Definition ArrayReader : Type := Reader array_reader_class ArrayStructure.
Definition VariableReader : Type :=
  Reader variable_reader_class VariableStructure.
Definition DataArrayReader : Type :=
  Reader data_array_reader_class DataArrayStructure.
Definition DatasetReader : Type :=
  Reader dataset_reader_class DatasetStructure.

(** *** Requests to the leaf readers, and the monad of a method call *)

Inductive event : Type :=
| ReadRequest (source : ArrayReader) (slice : slice_arg)
| ReadBlockRequest (source : ArrayReader) (block : list Z) (slice : slice_arg).

(** A call yields the requests it sent to leaf array readers, in order, and
    returns or raises. *)
Definition M (A : Type) : Type := (list event * outcome A)%type.

Definition ret {A : Type} (a : A) : M A := ([], Returns a).

Definition raise {A : Type} (e : exn) : M A := ([], Raises e).

Definition bind {A B : Type} (m : M A) (f : A -> M B) : M B :=
  match m with
  | (t, Returns a) => let '(t', r) := f a in (t ++ t', r)
  | (t, Raises e) => (t, Raises e)
  end.

Definition lift {A : Type} (r : outcome A) : M A := ([], r).

Definition trace {A : Type} (m : M A) : list event := fst m.

Definition result {A : Type} (m : M A) : outcome A := snd m.

Local Notation "x <- m ;; k" := (bind m (fun x => k))
  (at level 100, m at next level, right associativity).

(** The leaf array readers, by class. *)
Variable array_read : ArrayReader -> slice_arg -> outcome Raw.
Variable array_read_block :
  ArrayReader -> list Z -> slice_arg -> outcome Raw.

Definition ArrayReader_read (self : ArrayReader) (slice : slice_arg) : M Raw :=
  ([ReadRequest self slice], array_read self slice).

Definition ArrayReader_read_block (self : ArrayReader) (block : list Z)
    (slice : slice_arg) : M Raw :=
  ([ReadBlockRequest self block slice], array_read_block self block slice).

(** *** xarray containers, as their constructors receive them

    A container is the record of the arguments its constructor is called
    with.  The checks that xarray's constructors make on these arguments,
    and the ValueError they raise when dims, data and coordinates do not
    fit, are not part of the readers and are not modelled. *)

Record xarray_Variable : Type := mkVariable {
  var_dims : list string;
  var_data : Raw;
  var_attrs : gmap string string
}.

Record xarray_DataArray : Type := mkDataArray {
  dataarray_data : xarray_Variable;
  dataarray_coords : list (string * xarray_Variable);
  dataarray_name : string
}.

Record xarray_Dataset : Type := mkDataset {
  dataset_data_vars : list (string * xarray_DataArray);
  dataset_coords : list (string * xarray_Variable);
  dataset_attrs : gmap string string
}.

(** *** ClientDaskVariableReader and ClientVariableReader *)

Definition VariableReader_read_block (self : VariableReader)
    (block : list Z) (slice : slice_arg) : M Raw :=
  let structure := macro (structure self) in
  ArrayReader_read_block
    (mkReader (ARRAY_READER (cls self)) (_client self) (_path self)
       (metadata self) (_params self) (data structure) (_route self))
    block slice.

Definition VariableReader_read (self : VariableReader) (slice : slice_arg)
  : M xarray_Variable :=
  let structure := macro (structure self) in
  let array_source :=
    mkReader (ARRAY_READER (cls self)) (_client self) (_path self)
      (metadata self) (_params self) (data structure) (_route self) in
  d <- ArrayReader_read array_source slice ;;
  ret (mkVariable (dims structure) d (attrs structure)).

Definition VariableReader_getitem (self : VariableReader) (slice : slice_arg)
  : M xarray_Variable :=
  VariableReader_read self slice.

Definition VariableReader_len (self : VariableReader) : M Z :=
  lift (tuple_getitem (shape (macro (data (macro (structure self))))) 0).

(** *** ClientDaskDataArrayReader and ClientDataArrayReader *)

(** The dict display [{key: name, **params}]: an entry of [params] under
    the same key replaces the tag. *)
Definition tagged (key name : string) (params : gmap string string)
  : gmap string string :=
  params ∪ {[ key := name ]}.

Definition DataArrayReader_read_block (self : DataArrayReader)
    (block : list Z) (slice : slice_arg) : M Raw :=
  let structure := macro (structure self) in
  let variable := variable structure in
  let variable_source :=
    mkReader (VARIABLE_READER (cls self)) (_client self) (_path self)
      (metadata self) (_params self) variable (_route self) in
  VariableReader_read_block variable_source block slice.

Definition DataArrayReader_coords (self : DataArrayReader)
  : M (list (string * VariableReader)) :=
  let structure := macro (structure self) in
  ret (fold_left
         (fun result '(name, variable) =>
            let variable_source :=
              mkReader (VARIABLE_READER (cls self)) (_client self)
                (_path self) (metadata self)
                (tagged "coord" name (_params self)) variable (_route self) in
            dict_setitem name variable_source result)
         (da_coords structure) []).

(** The first lines of [read]: [None], an [Iterable], anything else. *)
Definition normalize_slice (slice : slice_arg) : list slice_item :=
  match slice with
  | SliceNone => []
  | SliceSeq t => t
  | SliceOne s => [s]
  end.

(** The loop of [read] over [zip_longest(slice, coords.items())].  A pair
    whose second component is the fill value does not unpack into
    [(name, variable)]. *)
Fixpoint DataArrayReader_read_coords (self : DataArrayReader)
    (pairs : list (option slice_item * option (string * VariableStructure)))
    (coords : list (string * xarray_Variable))
  : M (list (string * xarray_Variable)) :=
  match pairs with
  | [] => ret coords
  | (coord_slice, None) :: _ => raise TypeError
  | (coord_slice, Some (name, variable)) :: pairs' =>
      let coord_slice := default slice_all coord_slice in
      let variable_source :=
        mkReader (VARIABLE_READER (cls self)) (_client self) (_path self)
          (metadata self) (tagged "coord" name (_params self)) variable
          (_route self) in
      v <- VariableReader_read variable_source (SliceOne coord_slice) ;;
      DataArrayReader_read_coords self pairs' (dict_setitem name v coords)
  end.

Definition DataArrayReader_read (self : DataArrayReader) (slice : slice_arg)
  : M xarray_DataArray :=
  let slice := normalize_slice slice in
  let structure := macro (structure self) in
  let variable := variable structure in
  let variable_source :=
    mkReader (VARIABLE_READER (cls self)) (_client self) (_path self)
      (metadata self) (_params self) variable (_route self) in
  data <- VariableReader_read variable_source (SliceSeq slice) ;;
  coords <- DataArrayReader_read_coords self
              (zip_longest slice (da_coords structure)) [] ;;
  ret (mkDataArray data coords (name structure)).

Definition DataArrayReader_getitem (self : DataArrayReader)
    (slice : slice_arg) : M xarray_DataArray :=
  DataArrayReader_read self slice.

(** [read] as the specification words it: every coordinate, in the order of
    the structure, is read with the entry of the tuple at its position, or
    with select-everything when the tuple has no entry there. *)
Fixpoint read_coords_paired (self : DataArrayReader)
    (slice : list slice_item) (coords : list (string * VariableStructure))
    (acc : list (string * xarray_Variable))
  : M (list (string * xarray_Variable)) :=
  match coords with
  | [] => ret acc
  | (name, variable) :: coords' =>
      let variable_source :=
        mkReader (VARIABLE_READER (cls self)) (_client self) (_path self)
          (metadata self) (tagged "coord" name (_params self)) variable
          (_route self) in
      v <- VariableReader_read variable_source
             (SliceOne (hd slice_all slice)) ;;
      read_coords_paired self (tl slice) coords' (dict_setitem name v acc)
  end.

Definition DataArrayReader_read_spec (self : DataArrayReader)
    (slice : slice_arg) : M xarray_DataArray :=
  let structure := macro (structure self) in
  let variable_source :=
    mkReader (VARIABLE_READER (cls self)) (_client self) (_path self)
      (metadata self) (_params self) (variable structure) (_route self) in
  data <- VariableReader_read variable_source
            (SliceSeq (normalize_slice slice)) ;;
  coords <- read_coords_paired self (normalize_slice slice)
              (da_coords structure) [] ;;
  ret (mkDataArray data coords (name structure)).

Definition DataArrayReader_len (self : DataArrayReader) : M Z :=
  lift (tuple_getitem
          (shape (macro (data (macro (variable (macro (structure self)))))))
          0).

(** *** ClientDaskDatasetReader and ClientDatasetReader *)

(** [(columns is not None) and (name not in columns)] *)
Definition filtered_out (columns : option (list string)) (name : string)
  : bool :=
  match columns with
  | None => false
  | Some columns => negb (name_in name columns)
  end.

Definition DatasetReader_build_data_vars (self : DatasetReader)
    (structure : DatasetMacroStructure) (columns : option (list string))
  : list (string * DataArrayReader) :=
  fold_left
    (fun data_vars '(name, data_array) =>
       if filtered_out columns name then data_vars
       else
         let data_array_source :=
           mkReader (DATA_ARRAY_READER (cls self)) (_client self)
             (_path self) (metadata self)
             (tagged "variable" name (_params self)) data_array
             (_route self) in
         dict_setitem name data_array_source data_vars)
    (data_vars structure) [].

Definition DatasetReader_build_coords (self : DatasetReader)
    (structure : DatasetMacroStructure) (columns : option (list string))
  : list (string * VariableReader) :=
  fold_left
    (fun coords '(name, variable) =>
       if filtered_out columns name then coords
       else
         let variable_source :=
           mkReader (DATASET_VARIABLE_READER (cls self)) (_client self)
             (_path self) (metadata self)
             (tagged "variable" name (_params self)) variable
             (_route self) in
         dict_setitem name variable_source coords)
    (ds_coords structure) [].

Definition DatasetReader_data_vars (self : DatasetReader)
  : M (list (string * DataArrayReader)) :=
  let structure := macro (structure self) in
  ret (DatasetReader_build_data_vars self structure None).

Definition DatasetReader_coords (self : DatasetReader)
  : M (list (string * VariableReader)) :=
  let structure := macro (structure self) in
  ret (DatasetReader_build_coords self structure None).

(** The comprehension [{k: v.read() for k, v in sources.items()}]. *)
Fixpoint read_items {R V : Type} (read : R -> M V)
    (sources : list (string * R)) (acc : list (string * V))
  : M (list (string * V)) :=
  match sources with
  | [] => ret acc
  | (k, v) :: sources' =>
      x <- read v ;;
      read_items read sources' (dict_setitem k x acc)
  end.

Definition DatasetReader_read (self : DatasetReader)
    (columns : option (list string)) : M xarray_Dataset :=
  let structure := macro (structure self) in
  let data_vars := DatasetReader_build_data_vars self structure columns in
  let coords := DatasetReader_build_coords self structure columns in
  dv <- read_items (fun v => DataArrayReader_read v SliceNone) data_vars [] ;;
  cs <- read_items (fun v => VariableReader_read v SliceNone) coords [] ;;
  ret (mkDataset dv cs (ds_attrs structure)).

(** [_build_data_vars], [_build_coords] and [read] when [columns] is a
    one-shot iterator: the iterator that [_build_data_vars] has consumed is
    the one [_build_coords] goes on with. *)
Definition DatasetReader_build_data_vars_iter (self : DatasetReader)
    (structure : DatasetMacroStructure) (columns : list string)
  : list (string * DataArrayReader) * list string :=
  build_from_iterator
    (fun name data_array =>
       mkReader (DATA_ARRAY_READER (cls self)) (_client self) (_path self)
         (metadata self) (tagged "variable" name (_params self)) data_array
         (_route self))
    (data_vars structure) columns [].

Definition DatasetReader_build_coords_iter (self : DatasetReader)
    (structure : DatasetMacroStructure) (columns : list string)
  : list (string * VariableReader) * list string :=
  build_from_iterator
    (fun name variable =>
       mkReader (DATASET_VARIABLE_READER (cls self)) (_client self)
         (_path self) (metadata self)
         (tagged "variable" name (_params self)) variable (_route self))
    (ds_coords structure) columns [].

Definition DatasetReader_read_iter (self : DatasetReader)
    (columns : list string) : M xarray_Dataset :=
  let structure := macro (structure self) in
  let '(data_vars, columns) :=
    DatasetReader_build_data_vars_iter self structure columns in
  let '(coords, _) :=
    DatasetReader_build_coords_iter self structure columns in
  dv <- read_items (fun v => DataArrayReader_read v SliceNone) data_vars [] ;;
  cs <- read_items (fun v => VariableReader_read v SliceNone) coords [] ;;
  ret (mkDataset dv cs (ds_attrs structure)).

(** [Dataset.__getitem__] of xarray, applied to a name. *)
Variable xarray_Dataset_getitem :
  xarray_Dataset -> string -> outcome xarray_DataArray.

(** The key of [DatasetReader.__getitem__]: a [str], a collection of names
    that can be iterated again (a list, a tuple, a set), or a one-shot
    iterator over names, given by the items it yields. *)
Inductive dataset_key : Type :=
| KeyStr (columns : string)
| KeyNames (columns : list string)
| KeyIter (columns : list string).

(** What [DatasetReader.__getitem__] returns: the method is type unstable. *)
Inductive dataset_item : Type :=
| ItemDataArray (a : xarray_DataArray)
| ItemDataset (d : xarray_Dataset).

Definition DatasetReader_getitem (self : DatasetReader) (columns : dataset_key)
  : M dataset_item :=
  match columns with
  | KeyStr columns =>
      d <- DatasetReader_read self (Some [columns]) ;;
      a <- lift (xarray_Dataset_getitem d columns) ;;
      ret (ItemDataArray a)
  | KeyNames columns =>
      d <- DatasetReader_read self (Some columns) ;;
      ret (ItemDataset d)
  | KeyIter columns =>
      d <- DatasetReader_read_iter self columns ;;
      ret (ItemDataset d)
  end.

Definition DatasetReader_iter (self : DatasetReader) : M (list string) :=
  ret (dict_keys (data_vars (macro (structure self)))).

End Readers.

Arguments Reader : clear implicits.
Arguments ArrayReader : clear implicits.
Arguments VariableReader : clear implicits.
Arguments DataArrayReader : clear implicits.
Arguments DatasetReader : clear implicits.
Arguments event : clear implicits.
Arguments M : clear implicits.
Arguments xarray_Variable : clear implicits.
Arguments xarray_DataArray : clear implicits.
Arguments xarray_Dataset : clear implicits.
Arguments dataset_item : clear implicits.
Arguments mkReader {Client Metadata C S}.
Arguments cls {Client Metadata C S} r.
Arguments _client {Client Metadata C S} r.
Arguments _path {Client Metadata C S} r.
Arguments metadata {Client Metadata C S} r.
Arguments _params {Client Metadata C S} r.
Arguments structure {Client Metadata C S} r.
Arguments _route {Client Metadata C S} r.

Notation "x <- m ;; k" := (bind m (fun x => k))
  (at level 100, m at next level, right associativity).

(** The same reader object under another class. *)
Definition with_cls {Client Metadata C C' S : Type} (c : C')
    (r : Reader Client Metadata C S) : Reader Client Metadata C' S :=
  mkReader c (_client r) (_path r) (metadata r) (_params r) (structure r)
    (_route r).

(** Two requests that differ at most in the class of the leaf reader. *)
Definition same_request {Client Metadata : Type}
    (e1 e2 : event Client Metadata) : Prop :=
  match e1, e2 with
  | ReadRequest a1 s1, ReadRequest a2 s2 =>
      with_cls tt a1 = with_cls tt a2 /\ s1 = s2
  | ReadBlockRequest a1 b1 s1, ReadBlockRequest a2 b2 s2 =>
      with_cls tt a1 = with_cls tt a2 /\ b1 = b2 /\ s1 = s2
  | _, _ => False
  end.

(** Two calls that send the same requests and end the same way. *)
Definition same_call {Client Metadata A : Type}
    (m1 m2 : M Client Metadata A) : Prop :=
  Forall2 same_request (trace m1) (trace m2) /\ result m1 = result m2.

(** ** A sample service: the scenario of a dataset with one data variable
    "temp" over dimensions "x" (10) and "y" (5) *)

Definition sample_array (shape : list Z) : ArrayStructure :=
  mkStructure (mkArrayMacro (map (fun n => [n]) shape) shape) "float64".

Definition sample_variable (dims : list string) (shape : list Z)
  : VariableStructure :=
  mkStructure (mkVariableMacro dims (sample_array shape) ∅) tt.

Definition sample_temp : DataArrayStructure :=
  mkStructure
    (mkDataArrayMacro (sample_variable ["x"; "y"] [10; 5])
       [("x", sample_variable ["x"] [10]); ("y", sample_variable ["y"] [5])]
       "temp")
    tt.

(** "temp" again, with a coordinate for "x" only. *)
Definition sample_temp_x : DataArrayStructure :=
  mkStructure
    (mkDataArrayMacro (sample_variable ["x"; "y"] [10; 5])
       [("x", sample_variable ["x"] [10])] "temp")
    tt.

(** A one-dimensional array without coordinates. *)
Definition sample_bare : DataArrayStructure :=
  mkStructure (mkDataArrayMacro (sample_variable ["x"] [10]) [] "bare") tt.

Definition sample_dataset : DatasetStructure :=
  mkStructure
    (mkDatasetMacro [("temp", sample_temp)]
       [("x", sample_variable ["x"] [10]); ("y", sample_variable ["y"] [5])]
       {[ "title" := "sample" ]})
    tt.

(** A leaf reader that answers every request with the shape of the array
    and the slice it was asked for. *)
Definition echo_read (source : ArrayReader unit unit) (slice : slice_arg)
  : outcome (list Z * slice_arg) :=
  Returns (shape (macro (structure source)), slice).

Definition echo_read_block (source : ArrayReader unit unit) (block : list Z)
    (slice : slice_arg) : outcome (list Z * slice_arg) :=
  Returns (block, slice).

(** A stand-in for [Dataset.__getitem__]: data variables, then
    coordinates, else [KeyError]. *)
Definition echo_getitem (d : xarray_Dataset (list Z * slice_arg))
    (key : string) : outcome (xarray_DataArray (list Z * slice_arg)) :=
  match dict_get key (dataset_data_vars d) with
  | Some a => Returns a
  | None =>
      match dict_get key (dataset_coords d) with
      | Some v => Returns (mkDataArray v [(key, v)] key)
      | None => Raises KeyError
      end
  end.

Definition sample_reader {C S : Type} (c : C) (params : gmap string string)
    (s : S) (route : string) : Reader unit unit C S :=
  mkReader c tt ["sample"] tt params s route.

Definition slice_0_5 : slice_item := PySlice (Some 0) (Some 5) None.

Definition temp_reader : DataArrayReader unit unit :=
  sample_reader ClientDaskDataArrayReader ∅ sample_temp "/data_array/block".

Definition temp_x_reader : DataArrayReader unit unit :=
  sample_reader ClientDaskDataArrayReader ∅ sample_temp_x "/data_array/block".

Definition bare_reader : DataArrayReader unit unit :=
  sample_reader ClientDaskDataArrayReader ∅ sample_bare "/data_array/block".

(** A reader of "temp" whose own parameters already have a [coord] entry. *)
Definition preset_reader : DataArrayReader unit unit :=
  sample_reader ClientDaskDataArrayReader {[ "coord" := "z" ]} sample_temp
    "/data_array/block".

Definition dataset_reader : DatasetReader unit unit :=
  sample_reader ClientDaskDatasetReader ∅ sample_dataset "/dataset/block".

Definition scalar_reader : VariableReader unit unit :=
  sample_reader ClientDaskVariableReader ∅ (sample_variable [] [])
    "/variable/block".


(** The value a sample call returns, [fallback] if it raises. *)
Definition returned {A : Type} (fallback : A) (m : M unit unit A) : A :=
  match result m with
  | Returns a => a
  | Raises _ => fallback
  end.

Definition empty_DataArray : xarray_DataArray (list Z * slice_arg) :=
  mkDataArray (mkVariable [] ([], SliceNone) ∅) [] "".


(** ** The sub-readers a call constructs *)

(** The leaf reader that [read] and [read_block] of a variable reader
    construct. *)
Definition VariableReader_array_source {Client Metadata : Type}
    (self : VariableReader Client Metadata) : ArrayReader Client Metadata :=
  mkReader (ARRAY_READER (cls self)) (_client self) (_path self)
    (metadata self) (_params self) (data (macro (structure self)))
    (_route self).

(** The reader of the main variable that [read] and [read_block] of a
    data-array reader construct. *)
Definition DataArrayReader_variable_source {Client Metadata : Type}
    (self : DataArrayReader Client Metadata)
  : VariableReader Client Metadata :=
  mkReader (VARIABLE_READER (cls self)) (_client self) (_path self)
    (metadata self) (_params self) (variable (macro (structure self)))
    (_route self).

(** The reader of a coordinate that [coords] and [read] of a data-array
    reader construct. *)
Definition DataArrayReader_coord_source {Client Metadata : Type}
    (self : DataArrayReader Client Metadata) (name : string)
    (variable : VariableStructure) : VariableReader Client Metadata :=
  mkReader (VARIABLE_READER (cls self)) (_client self) (_path self)
    (metadata self) (tagged "coord" name (_params self)) variable
    (_route self).

(** The request that reading one coordinate with one slice sends. *)
Definition coord_request {Client Metadata : Type}
    (self : DataArrayReader Client Metadata)
    (p : slice_item * (string * VariableStructure)) : event Client Metadata :=
  ReadRequest
    (VariableReader_array_source
       (DataArrayReader_coord_source self (fst (snd p)) (snd (snd p))))
    (SliceOne (fst p)).

(** The leaf reader a request is sent to. *)
Definition request_source {Client Metadata : Type}
    (ev : event Client Metadata) : ArrayReader Client Metadata :=
  match ev with
  | ReadRequest a _ => a
  | ReadBlockRequest a _ _ => a
  end.

(** A request on behalf of [self]: its leaf reader is of class [leaf] and
    has the transport handle, path, metadata and route of [self]. *)
Definition request_of {Client Metadata C S : Type}
    (self : Reader Client Metadata C S) (leaf : array_reader_class)
    (ev : event Client Metadata) : Prop :=
  _client (request_source ev) = _client self
  /\ _path (request_source ev) = _path self
  /\ metadata (request_source ev) = metadata self
  /\ _route (request_source ev) = _route self
  /\ cls (request_source ev) = leaf.


(** ** [tiled/server/orm.py]: JSONList and Timestamped *)

#[local] Set Warnings "-register-all".

(** The Python values that reach the column type and [__repr__]. *)
Inductive py_value : Type :=
| VNone
| VBool (b : bool)
| VInt (i : Z)
| VStr (s : string)
| VList (items : list py_value)
| VDict (items : list (string * py_value)).

Inductive orm_exn : Type :=
| ValueError (msg : string)
| JSONDecodeError (msg : string).

Inductive orm_outcome (A : Type) : Type :=
| OrmReturns (a : A)
| OrmRaises (e : orm_exn).

Arguments OrmReturns {A} a.
Arguments OrmRaises {A} e.

(** [isinstance(value, list)] *)
Definition is_list (value : py_value) : bool :=
  match value with
  | VList _ => true
  | _ => false
  end.

(** [value is not None] *)
Definition is_not_None (value : py_value) : bool :=
  match value with
  | VNone => false
  | _ => true
  end.

(** [sep.join(parts)] *)
Fixpoint str_join (sep : string) (parts : list string) : string :=
  match parts with
  | [] => EmptyString
  | [part] => part
  | part :: parts' => String.append part (String.append sep (str_join sep parts'))
  end.

Section Orm.

(** [json.dumps], [json.loads] and [repr] are outside the repository. *)
Variable json_dumps : py_value -> string.
Variable json_loads : string -> orm_outcome py_value.
Variable py_repr : py_value -> string.

(** [JSONList.process_bind_param]; the dialect is not used.  The result is
    the text to store, or [None]. *)
Definition JSONList_process_bind_param (value : py_value)
  : orm_outcome (option string) :=
  if negb (is_list value)
  then OrmRaises (ValueError "JSONList must be given a literal `list` type.")
  else
    if is_not_None value
    then OrmReturns (Some (json_dumps value))
    else OrmReturns None.

(** [JSONList.process_result_value]; the stored text, or [None] for NULL. *)
Definition JSONList_process_result_value (value : option string)
  : orm_outcome py_value :=
  match value with
  | Some text => json_loads text
  | None => OrmReturns VNone
  end.

(** [Timestamped.__repr__] of an object of class [type_name] whose
    [__dict__] has the given items. *)
Definition Timestamped_repr (type_name : string)
    (items : list (string * py_value)) : string :=
  String.append (String.append type_name "(")
    (String.append
       (str_join ", "
          (map
             (fun '(key, value) =>
                String.append key (String.append "=" (py_repr value)))
             (List.filter (fun '(key, _) => negb (String.prefix "_" key))
                items)))
       ")").

End Orm.

(** Stand-ins for [json.dumps], [json.loads] and [repr] on the empty list. *)
Definition sample_dumps (value : py_value) : string := "[]".

Definition sample_loads (text : string) : orm_outcome py_value :=
  OrmReturns (VList []).

Definition sample_repr (value : py_value) : string :=
  match value with
  | VInt i => if i =? 1 then "1" else "0"
  | _ => "None"
  end.

(** ** Python containers *)

Lemma tuple_getitem_first {A : Type} (x : A) (t : list A) :
  tuple_getitem (x :: t) 0 = Returns x.
Proof.
  unfold tuple_getitem. cbn [length Z.ltb Z.compare].
  rewrite Nat2Z.inj_succ.
  destruct (Z.ltb_spec 0 (Z.succ (Z.of_nat (length t)))) as [_|H];
    [reflexivity | lia].
Qed.

Lemma tuple_getitem_empty {A : Type} (i : Z) :
  tuple_getitem (@nil A) i = Raises IndexError.
Proof.
  unfold tuple_getitem.
  match goal with
  | |- (if ?c then match nth_error _ ?n with _ => _ end else _) = _ =>
      destruct c; [destruct n|]; reflexivity
  end.
Qed.

Lemma dict_keys_setitem {V : Type} (k : string) (v : V)
    (d : list (string * V)) (k' : string) :
  In k' (dict_keys (dict_setitem k v d)) <-> k' = k \/ In k' (dict_keys d).
Proof.
  induction d as [|[k0 v0] d IH]; simpl.
  - intuition.
  - destruct (String.eqb_spec k k0) as [->|Hne]; simpl.
    + intuition.
    + rewrite IH. intuition.
Qed.

Lemma dict_setitem_In {V : Type} (k : string) (v : V)
    (d : list (string * V)) (k' : string) (v' : V) :
  In (k', v') (dict_setitem k v d) -> (k' = k /\ v' = v) \/ In (k', v') d.
Proof.
  induction d as [|[k0 v0] d IH]; simpl.
  - intros [H|[]]. inversion H. auto.
  - destruct (String.eqb_spec k k0) as [->|Hne]; simpl.
    + intros [H|H]; [inversion H; auto | auto].
    + intros [H|H]; [auto | destruct (IH H); auto].
Qed.

Lemma dict_setitem_fresh {V : Type} (k : string) (v : V)
    (d : list (string * V)) :
  ~ In k (dict_keys d) -> dict_setitem k v d = d ++ [(k, v)].
Proof.
  induction d as [|[k0 v0] d IH]; simpl; intros Hk.
  - reflexivity.
  - destruct (String.eqb_spec k k0) as [->|Hne].
    + exfalso. auto.
    + rewrite IH; [reflexivity | auto].
Qed.

Lemma name_in_In (name : string) (columns : list string) :
  name_in name columns = true <-> In name columns.
Proof.
  unfold name_in. rewrite existsb_exists. split.
  - intros (x & Hx & Heq). apply String.eqb_eq in Heq. now subst.
  - intros H. exists name. split; [assumption | apply String.eqb_refl].
Qed.

(** ** The loops that build a mapping of sub-readers

    [coords], [_build_data_vars] and [_build_coords] share one shape: a
    loop over the items of a structure mapping that skips some names and
    stores a freshly made reader under the others. *)

Section BuildLoop.

Context {S V : Type} (skip : string -> bool) (make : string -> S -> V).

Lemma build_loop_keys (items : list (string * S)) (acc : list (string * V))
    (k : string) :
  In k (dict_keys
          (fold_left
             (fun acc '(name, s) =>
                if skip name then acc else dict_setitem name (make name s) acc)
             items acc))
  <-> In k (dict_keys acc) \/ (In k (dict_keys items) /\ skip k = false).
Proof.
  revert acc. induction items as [|[name s] items IH]; intros acc; simpl.
  - intuition.
  - rewrite IH. destruct (skip name) eqn:Hs.
    + split.
      * intros [H|[H1 H2]]; auto.
      * intros [H|[[H|H] H2]]; auto. subst. congruence.
    + rewrite dict_keys_setitem. split.
      * intros [[H|H]|[H1 H2]]; subst; auto.
      * intros [H|[[H|H] H2]]; subst; auto.
Qed.

Lemma build_loop_In (items : list (string * S)) (acc : list (string * V))
    (k : string) (v : V) :
  In (k, v)
     (fold_left
        (fun acc '(name, s) =>
           if skip name then acc else dict_setitem name (make name s) acc)
        items acc)
  -> In (k, v) acc
     \/ exists s, In (k, s) items /\ skip k = false /\ v = make k s.
Proof.
  revert acc. induction items as [|[name s] items IH]; intros acc; simpl.
  - auto.
  - intros H. apply IH in H. destruct H as [H|(s' & H1 & H2 & H3)].
    + destruct (skip name) eqn:Hs; [auto|].
      apply dict_setitem_In in H. destruct H as [[-> ->]|H]; [|auto].
      right. exists s. auto.
    + right. exists s'. auto.
Qed.

Lemma build_loop_nodup (items : list (string * S)) (acc : list (string * V)) :
  List.NoDup (dict_keys items) ->
  (forall k, In k (dict_keys items) -> ~ In k (dict_keys acc)) ->
  fold_left
    (fun acc '(name, s) =>
       if skip name then acc else dict_setitem name (make name s) acc)
    items acc
  = acc ++ map (fun '(name, s) => (name, make name s))
             (List.filter (fun '(name, _) => negb (skip name)) items).
Proof.
  revert acc. induction items as [|[name s] items IH]; intros acc Hnd Hfresh.
  - simpl. now rewrite app_nil_r.
  - simpl in Hnd. inversion Hnd as [|? ? Hname Hnd']; subst.
    simpl. destruct (skip name) eqn:Hs; simpl.
    + apply IH; [assumption|]. intros k Hk. apply Hfresh. simpl. auto.
    + rewrite IH; [| assumption |].
      * rewrite dict_setitem_fresh by (apply Hfresh; simpl; auto).
        now rewrite <- app_assoc.
      * intros k Hk Hin. apply dict_keys_setitem in Hin.
        destruct Hin as [->|Hin]; [auto|].
        revert Hin. apply Hfresh. simpl. auto.
Qed.

End BuildLoop.

Lemma dict_setitem_nodup {V : Type} (k : string) (v : V)
    (d : list (string * V)) :
  List.NoDup (dict_keys d) -> List.NoDup (dict_keys (dict_setitem k v d)).
Proof.
  induction d as [|[k0 v0] d IH]; simpl; intros Hnd.
  - constructor; [intros [] | constructor].
  - inversion Hnd as [|? ? Hk0 Hnd']; subst.
    destruct (String.eqb_spec k k0) as [->|Hne]; simpl.
    + constructor; assumption.
    + constructor; [|auto].
      intros Hin. apply dict_keys_setitem in Hin. destruct Hin; auto.
Qed.

Lemma nodup_single (c : string) (l : list string) :
  List.NoDup l -> (forall k, In k l <-> k = c) -> l = [c].
Proof.
  intros Hnd Hl. destruct l as [|a l].
  - exfalso. apply (proj2 (Hl c)). reflexivity.
  - assert (a = c) as -> by (apply Hl; simpl; auto).
    destruct l as [|b l]; [reflexivity|].
    assert (b = c) as -> by (apply Hl; simpl; auto).
    inversion Hnd as [|? ? Hc _]; subst. exfalso. apply Hc. simpl. auto.
Qed.

Section BuildLoopMore.

Context {S V : Type} (make : string -> S -> V).

Lemma build_loop_keys_nodup (skip : string -> bool)
    (items : list (string * S)) (acc : list (string * V)) :
  List.NoDup (dict_keys acc) ->
  List.NoDup
    (dict_keys
       (fold_left
          (fun acc '(name, s) =>
             if skip name then acc else dict_setitem name (make name s) acc)
          items acc)).
Proof.
  revert acc. induction items as [|[name s] items IH]; intros acc Hnd; simpl.
  - assumption.
  - apply IH. destruct (skip name); [assumption|].
    now apply dict_setitem_nodup.
Qed.

Lemma build_loop_skip_all (skip : string -> bool)
    (items : list (string * S)) (acc : list (string * V)) :
  (forall k, In k (dict_keys items) -> skip k = true) ->
  fold_left
    (fun acc '(name, s) =>
       if skip name then acc else dict_setitem name (make name s) acc)
    items acc = acc.
Proof.
  revert acc. induction items as [|[name s] items IH]; intros acc Hall; simpl.
  - reflexivity.
  - rewrite (Hall name) by (simpl; auto). apply IH.
    intros k Hk. apply Hall. simpl. auto.
Qed.

Lemma build_loop_ext (skip skip' : string -> bool)
    (items : list (string * S)) (acc : list (string * V)) :
  (forall k, In k (dict_keys items) -> skip k = skip' k) ->
  fold_left
    (fun acc '(name, s) =>
       if skip name then acc else dict_setitem name (make name s) acc)
    items acc
  = fold_left
      (fun acc '(name, s) =>
         if skip' name then acc else dict_setitem name (make name s) acc)
      items acc.
Proof.
  revert acc. induction items as [|[name s] items IH]; intros acc Hext; simpl.
  - reflexivity.
  - rewrite (Hext name) by (simpl; auto). apply IH.
    intros k Hk. apply Hext. simpl. auto.
Qed.

End BuildLoopMore.

(** ** The monad of a call *)

Section Calls.

Context {Client Metadata : Type}.

Lemma bind_returns {A B : Type} (m : M Client Metadata A)
    (f : A -> M Client Metadata B) (t : list (event Client Metadata)) (b : B) :
  (x <- m ;; f x) = (t, Returns b) ->
  exists t1 a t2, m = (t1, Returns a) /\ f a = (t2, Returns b) /\ t = t1 ++ t2.
Proof.
  destruct m as [t1 [a|e]]; simpl; [|discriminate].
  destruct (f a) as [t2 r] eqn:Hf. intros H. inversion H; subst.
  exists t1, a, t2. auto.
Qed.

Lemma bind_ret_l {A B : Type} (a : A) (f : A -> M Client Metadata B) :
  (x <- ret a ;; f x) = f a.
Proof.
  unfold bind, ret. destruct (f a). reflexivity.
Qed.

Lemma same_call_refl {A : Type} (m : M Client Metadata A) : same_call m m.
Proof.
  split; [|reflexivity].
  induction (trace m) as [|e t IH]; constructor; [|assumption].
  destruct e; simpl; auto.
Qed.

Lemma same_call_bind {A B : Type} (m1 m2 : M Client Metadata A)
    (f1 f2 : A -> M Client Metadata B) :
  same_call m1 m2 -> (forall a, same_call (f1 a) (f2 a)) ->
  same_call (x <- m1 ;; f1 x) (x <- m2 ;; f2 x).
Proof.
  destruct m1 as [t1 r1], m2 as [t2 r2]. unfold same_call. simpl.
  intros [Ht Hr] Hf. subst r2. destruct r1 as [a|e]; simpl; [|auto].
  specialize (Hf a). destruct (f1 a) as [u1 s1], (f2 a) as [u2 s2].
  simpl in *. destruct Hf as [Hu Hs]. split; [|assumption].
  now apply Forall2_app.
Qed.

Lemma read_items_keys {R V : Type} (read : R -> M Client Metadata V)
    (sources : list (string * R)) (acc d : list (string * V))
    (t : list (event Client Metadata)) :
  read_items read sources acc = (t, Returns d) ->
  forall k, In k (dict_keys d) <-> In k (dict_keys acc) \/ In k (dict_keys sources).
Proof.
  revert acc t. induction sources as [|[k0 v0] sources IH]; intros acc t; simpl.
  - intros H k. inversion H; subst. intuition.
  - intros H k. apply bind_returns in H.
    destruct H as (t1 & x & t2 & _ & H & _).
    rewrite (IH _ _ H k), dict_keys_setitem. intuition.
Qed.

Lemma read_items_total {R V : Type} (read : R -> M Client Metadata V)
    (sources : list (string * R)) (acc : list (string * V)) :
  (forall v, exists t x, read v = (t, Returns x)) ->
  exists t d, read_items read sources acc = (t, Returns d).
Proof.
  intros Hread. revert acc.
  induction sources as [|[k0 v0] sources IH]; intros acc; simpl.
  - exists [], acc. reflexivity.
  - destruct (Hread v0) as (t1 & x & ->). simpl.
    destruct (IH (dict_setitem k0 x acc)) as (t2 & d & ->).
    exists (t1 ++ t2), d. reflexivity.
Qed.

End Calls.

(** ** The readers *)

Section Properties.

Context {Client Metadata Raw : Type}.

Variable array_read : ArrayReader Client Metadata -> slice_arg -> outcome Raw.
Variable array_read_block :
  ArrayReader Client Metadata -> list Z -> slice_arg -> outcome Raw.
Variable xarray_Dataset_getitem :
  xarray_Dataset Raw -> string -> outcome (xarray_DataArray Raw).

(** *** Length *)

(** C7: [length()] of a VariableReader and of a DataArrayReader is the first
    entry of the shape recorded in the structure when the array has rank at
    least 1, and fails (IndexError, without any request) for rank 0. *)
Theorem len_is_first_dimension (v : VariableReader Client Metadata)
    (a : DataArrayReader Client Metadata) :
  VariableReader_len v
  = match shape (macro (data (macro (structure v)))) with
    | [] => raise IndexError
    | n :: _ => ret n
    end
  /\ DataArrayReader_len a
     = match
         shape (macro (data (macro (variable (macro (structure a))))))
       with
       | [] => raise IndexError
       | n :: _ => ret n
       end.
Proof.
  unfold VariableReader_len, DataArrayReader_len, lift, raise, ret.
  split.
  - destruct (shape (macro (data (macro (structure v))))) as [|n rest].
    + now rewrite tuple_getitem_empty.
    + now rewrite tuple_getitem_first.
  - destruct (shape (macro (data (macro (variable (macro (structure a)))))))
      as [|n rest].
    + now rewrite tuple_getitem_empty.
    + now rewrite tuple_getitem_first.
Qed.

(** *** The mappings of sub-readers of a dataset *)

Lemma build_data_vars_keys (self : DatasetReader Client Metadata)
    (st : DatasetMacroStructure) (columns : option (list string))
    (k : string) :
  In k (dict_keys (DatasetReader_build_data_vars self st columns))
  <-> In k (dict_keys (data_vars st)) /\ filtered_out columns k = false.
Proof.
  pose proof
    (build_loop_keys (filtered_out columns)
       (fun name s =>
          mkReader (DATA_ARRAY_READER (cls self)) (_client self)
            (_path self) (metadata self)
            (tagged "variable" name (_params self)) s (_route self))
       (data_vars st) [] k) as H.
  cbv beta in H. unfold DatasetReader_build_data_vars.
  rewrite H. simpl. intuition.
Qed.

Lemma build_coords_keys (self : DatasetReader Client Metadata)
    (st : DatasetMacroStructure) (columns : option (list string))
    (k : string) :
  In k (dict_keys (DatasetReader_build_coords self st columns))
  <-> In k (dict_keys (ds_coords st)) /\ filtered_out columns k = false.
Proof.
  pose proof
    (build_loop_keys (filtered_out columns)
       (fun name s =>
          mkReader (DATASET_VARIABLE_READER (cls self)) (_client self)
            (_path self) (metadata self)
            (tagged "variable" name (_params self)) s (_route self))
       (ds_coords st) [] k) as H.
  cbv beta in H. unfold DatasetReader_build_coords.
  rewrite H. simpl. intuition.
Qed.

Lemma filtered_out_some (columns : list string) (k : string) :
  filtered_out (Some columns) k = false <-> In k columns.
Proof.
  unfold filtered_out. rewrite <- name_in_In.
  destruct (name_in k columns); simpl; intuition congruence.
Qed.

Lemma build_coords_single (self : DatasetReader Client Metadata)
    (st : DatasetMacroStructure) (c : string) :
  In c (dict_keys (ds_coords st)) ->
  dict_keys (DatasetReader_build_coords self st (Some [c])) = [c].
Proof.
  intros Hc. apply nodup_single.
  - unfold DatasetReader_build_coords.
    apply (build_loop_keys_nodup
             (fun name s =>
                mkReader (DATASET_VARIABLE_READER (cls self)) (_client self)
                  (_path self) (metadata self)
                  (tagged "variable" name (_params self)) s (_route self))).
    constructor.
  - intros k. rewrite build_coords_keys, filtered_out_some. simpl.
    split.
    + intros [_ [H|[]]]. now subst.
    + intros ->. auto.
Qed.

(** *** Iteration *)

(** C3: iterating a DatasetReader yields exactly the keys of the structure's
    [data_vars], in their order, with no request sent; a coordinate name
    (one that is not also the name of a data variable) is never yielded,
    although indexing by it selects the coordinate's sub-reader. *)
Theorem iter_yields_data_var_names (self : DatasetReader Client Metadata) :
  DatasetReader_iter self
  = ret (dict_keys (data_vars (macro (structure self))))
  /\ forall c,
       In c (dict_keys (ds_coords (macro (structure self)))) ->
       ~ In c (dict_keys (data_vars (macro (structure self)))) ->
       (forall t names,
          DatasetReader_iter self = (t, Returns names) -> ~ In c names)
       /\ dict_keys
            (DatasetReader_build_coords self (macro (structure self))
               (Some [c]))
          = [c].
Proof.
  split; [reflexivity|].
  intros c Hc Hnot. split.
  - intros t names H. unfold DatasetReader_iter, ret in H.
    inversion H; subst. assumption.
  - now apply build_coords_single.
Qed.

(** *** The column filter *)

(** C6: whatever the column filter, [_build_data_vars] and [_build_coords]
    make a sub-reader only under names of the filter, so does [read]; the
    accessors [data_vars] and [coords] return, without any request, a
    mapping that has a sub-reader under every name of the structure. *)
Theorem columns_filter_limits_instantiation
    (self : DatasetReader Client Metadata) (columns : list string) :
  (forall k,
     In k (dict_keys
             (DatasetReader_build_data_vars self (macro (structure self))
                (Some columns))) ->
     In k columns)
  /\ (forall k,
        In k (dict_keys
                (DatasetReader_build_coords self (macro (structure self))
                   (Some columns))) ->
        In k columns)
  /\ (forall t d,
        DatasetReader_read array_read self (Some columns) = (t, Returns d) ->
        forall k,
          (In k (dict_keys (dataset_data_vars d)) -> In k columns)
          /\ (In k (dict_keys (dataset_coords d)) -> In k columns))
  /\ (exists m,
        DatasetReader_data_vars self = ret m
        /\ forall k,
             In k (dict_keys m)
             <-> In k (dict_keys (data_vars (macro (structure self)))))
  /\ (exists m,
        DatasetReader_coords self = ret m
        /\ forall k,
             In k (dict_keys m)
             <-> In k (dict_keys (ds_coords (macro (structure self))))).
Proof.
  split; [|split; [|split; [|split]]].
  - intros k Hk. apply build_data_vars_keys in Hk.
    now apply filtered_out_some.
  - intros k Hk. apply build_coords_keys in Hk.
    now apply filtered_out_some.
  - intros t d H k. unfold DatasetReader_read in H.
    apply bind_returns in H. destruct H as (t1 & dv & t2 & Hdv & H & _).
    apply bind_returns in H. destruct H as (t3 & cs & t4 & Hcs & H & _).
    unfold ret in H. inversion H; subst; simpl.
    rewrite (read_items_keys _ _ _ _ _ Hdv k).
    rewrite (read_items_keys _ _ _ _ _ Hcs k).
    rewrite build_data_vars_keys, build_coords_keys, filtered_out_some.
    simpl. intuition.
  - eexists. split; [reflexivity|].
    intros k. rewrite build_data_vars_keys. simpl. intuition.
  - eexists. split; [reflexivity|].
    intros k. rewrite build_coords_keys. simpl. intuition.
Qed.

(** *** Reading a dataset *)

Lemma VariableReader_read_total (v : VariableReader Client Metadata)
    (slice : slice_arg) :
  (forall a s, exists raw, array_read a s = Returns raw) ->
  exists t x, VariableReader_read array_read v slice = (t, Returns x).
Proof.
  intros Hleaf. unfold VariableReader_read, ArrayReader_read.
  match goal with
  | |- context [array_read ?a ?s] => destruct (Hleaf a s) as (raw & ->)
  end.
  simpl. eauto.
Qed.

Lemma read_coords_unsliced_total (self : DataArrayReader Client Metadata)
    (coords : list (string * VariableStructure))
    (acc : list (string * xarray_Variable Raw)) :
  (forall a s, exists raw, array_read a s = Returns raw) ->
  exists t d,
    DataArrayReader_read_coords array_read self (zip_longest [] coords) acc
    = (t, Returns d).
Proof.
  intros Hleaf. revert acc.
  induction coords as [|[name v] coords IH]; intros acc; simpl.
  - exists [], acc. reflexivity.
  - match goal with
    | |- context [VariableReader_read array_read ?r ?s] =>
        destruct (VariableReader_read_total r s Hleaf) as (t1 & x & ->)
    end.
    simpl. destruct (IH (dict_setitem name x acc)) as (t2 & d & Hd).
    simpl in Hd. rewrite Hd. eauto.
Qed.

Lemma DataArrayReader_read_unsliced_total
    (self : DataArrayReader Client Metadata) :
  (forall a s, exists raw, array_read a s = Returns raw) ->
  exists t x, DataArrayReader_read array_read self SliceNone = (t, Returns x).
Proof.
  intros Hleaf. unfold DataArrayReader_read.
  match goal with
  | |- context [VariableReader_read array_read ?r ?s] =>
      destruct (VariableReader_read_total r s Hleaf) as (t1 & x & ->)
  end.
  cbn [bind normalize_slice].
  destruct (read_coords_unsliced_total self
              (da_coords (macro (structure self))) [] Hleaf)
    as (t2 & d & ->).
  simpl. eauto.
Qed.

(** C10: [read(columns=[])] filters out every data variable and every
    coordinate and returns, without any request, a Dataset that has none of
    them but carries the structure's attrs; [read(columns=None)] filters
    nothing: whenever it returns, the Dataset has an entry under every data
    variable and every coordinate of the structure, and it does return when
    the leaf readers do. *)
Theorem read_none_versus_empty_columns
    (self : DatasetReader Client Metadata) :
  DatasetReader_read array_read self (Some [])
  = ret (mkDataset [] [] (ds_attrs (macro (structure self))))
  /\ (forall t d,
        DatasetReader_read array_read self None = (t, Returns d) ->
        dataset_attrs d = ds_attrs (macro (structure self))
        /\ (forall k,
              In k (dict_keys (dataset_data_vars d))
              <-> In k (dict_keys (data_vars (macro (structure self)))))
        /\ (forall k,
              In k (dict_keys (dataset_coords d))
              <-> In k (dict_keys (ds_coords (macro (structure self))))))
  /\ ((forall a s, exists raw, array_read a s = Returns raw) ->
      exists t d, DatasetReader_read array_read self None = (t, Returns d)).
Proof.
  split; [|split].
  - unfold DatasetReader_read, DatasetReader_build_data_vars,
      DatasetReader_build_coords.
    rewrite !build_loop_skip_all by reflexivity. reflexivity.
  - intros t d H. unfold DatasetReader_read in H.
    apply bind_returns in H. destruct H as (t1 & dv & t2 & Hdv & H & _).
    apply bind_returns in H. destruct H as (t3 & cs & t4 & Hcs & H & _).
    unfold ret in H. inversion H; subst; simpl.
    split; [reflexivity|]. split; intros k.
    + rewrite (read_items_keys _ _ _ _ _ Hdv k), build_data_vars_keys.
      simpl. intuition.
    + rewrite (read_items_keys _ _ _ _ _ Hcs k), build_coords_keys.
      simpl. intuition.
  - intros Hleaf. unfold DatasetReader_read.
    match goal with
    | |- context [read_items ?f ?l []] =>
        destruct (read_items_total f l []) as (t1 & dv & ->)
    end.
    { intros v. now apply DataArrayReader_read_unsliced_total. }
    cbn [bind].
    match goal with
    | |- context [read_items ?f ?l []] =>
        destruct (read_items_total f l []) as (t2 & cs & ->)
    end.
    { intros v. now apply VariableReader_read_total. }
    simpl. eauto.
Qed.

(** *** Names that the structure does not have *)

Lemma filtered_out_other (name k : string) (columns : list string) :
  k <> name ->
  filtered_out (Some (name :: columns)) k = filtered_out (Some columns) k.
Proof.
  intros Hk. unfold filtered_out, name_in. simpl.
  destruct (String.eqb_spec k name); [contradiction | reflexivity].
Qed.

Lemma absent_from_keys {V : Type} (name k : string)
    (items : list (string * V)) :
  ~ In name (dict_keys items) -> In k (dict_keys items) -> k <> name.
Proof.
  intros Hname Hk ->. contradiction.
Qed.

(** C5, as the code has it: a requested name that the structure does not
    have raises nothing where sub-readers are made.  [_build_data_vars] and
    [_build_coords] make no sub-reader for it, [read(columns=[name])]
    returns, without any request, a Dataset with no data variable and no
    coordinate, and next to other names it is ignored; [DatasetReader[name]]
    is the extraction of [name] from that empty Dataset, the only place
    where a lookup error can come from. *)
Theorem absent_name_is_skipped (self : DatasetReader Client Metadata)
    (name : string) :
  ~ In name (dict_keys (data_vars (macro (structure self)))) ->
  ~ In name (dict_keys (ds_coords (macro (structure self)))) ->
  DatasetReader_build_data_vars self (macro (structure self)) (Some [name])
  = []
  /\ DatasetReader_build_coords self (macro (structure self)) (Some [name])
     = []
  /\ DatasetReader_read array_read self (Some [name])
     = ret (mkDataset [] [] (ds_attrs (macro (structure self))))
  /\ DatasetReader_getitem array_read xarray_Dataset_getitem self
       (KeyStr name)
     = (a <- lift
               (xarray_Dataset_getitem
                  (mkDataset [] [] (ds_attrs (macro (structure self))))
                  name) ;;
        ret (ItemDataArray a))
  /\ forall columns,
       DatasetReader_read array_read self (Some (name :: columns))
       = DatasetReader_read array_read self (Some columns).
Proof.
  intros Hdv Hcs.
  assert (DatasetReader_build_data_vars self (macro (structure self))
            (Some [name]) = []) as Hb1.
  { unfold DatasetReader_build_data_vars. apply build_loop_skip_all.
    intros k Hk. rewrite filtered_out_other
      by (exact (absent_from_keys _ _ _ Hdv Hk)).
    reflexivity. }
  assert (DatasetReader_build_coords self (macro (structure self))
            (Some [name]) = []) as Hb2.
  { unfold DatasetReader_build_coords. apply build_loop_skip_all.
    intros k Hk. rewrite filtered_out_other
      by (exact (absent_from_keys _ _ _ Hcs Hk)).
    reflexivity. }
  assert (DatasetReader_read array_read self (Some [name])
          = ret (mkDataset [] [] (ds_attrs (macro (structure self)))))
    as Hread.
  { unfold DatasetReader_read. rewrite Hb1, Hb2. reflexivity. }
  split; [exact Hb1|]. split; [exact Hb2|]. split; [exact Hread|]. split.
  - unfold DatasetReader_getitem. rewrite Hread, bind_ret_l. reflexivity.
  - intros columns. unfold DatasetReader_read.
    assert (DatasetReader_build_data_vars self (macro (structure self))
              (Some (name :: columns))
            = DatasetReader_build_data_vars self (macro (structure self))
                (Some columns)) as ->.
    { unfold DatasetReader_build_data_vars. apply build_loop_ext.
      intros k Hk. apply filtered_out_other.
      exact (absent_from_keys _ _ _ Hdv Hk). }
    assert (DatasetReader_build_coords self (macro (structure self))
              (Some (name :: columns))
            = DatasetReader_build_coords self (macro (structure self))
                (Some columns)) as ->.
    { unfold DatasetReader_build_coords. apply build_loop_ext.
      intros k Hk. apply filtered_out_other.
      exact (absent_from_keys _ _ _ Hcs Hk). }
    reflexivity.
Qed.

(** *** Column filters that are one-shot iterators *)





(** *** Indexing a dataset *)


(** *** The coordinates of a data array *)

Lemma tagged_lookup (key name : string) (params : gmap string string) :
  tagged key name params !! key = Some (default name (params !! key)).
Proof.
  unfold tagged. rewrite lookup_union, lookup_singleton_eq.
  destruct (params !! key); reflexivity.
Qed.

Lemma tagged_lookup_ne (key name key' : string)
    (params : gmap string string) :
  key' <> key -> tagged key name params !! key' = params !! key'.
Proof.
  intros Hne. unfold tagged.
  rewrite lookup_union, lookup_singleton_ne by congruence.
  destruct (params !! key'); reflexivity.
Qed.

(** C8, as the code has it: [coords] returns, without any request, a mapping
    with a VariableReader under every coordinate name of the structure, and
    under no other; each is of the variant's VARIABLE_READER class, reads
    the coordinate's structure and keeps the reader's own parameters; its
    [coord] parameter is the coordinate's name unless the reader's own
    parameters already have a [coord] entry, which then stays. *)
Theorem coords_maps_names_to_tagged_readers
    (self : DataArrayReader Client Metadata) :
  exists m,
    DataArrayReader_coords self = ret m
    /\ (forall k,
          In k (dict_keys m)
          <-> In k (dict_keys (da_coords (macro (structure self)))))
    /\ forall name source,
         In (name, source) m ->
         _params source !! "coord"
         = Some (default name (_params self !! "coord"))
         /\ (forall key,
               key <> "coord" -> _params source !! key = _params self !! key)
         /\ cls source = VARIABLE_READER (cls self)
         /\ In (name, structure source) (da_coords (macro (structure self))).
Proof.
  eexists. split; [reflexivity|]. split.
  - intros k.
    pose proof
      (build_loop_keys (fun _ => false)
         (fun name s =>
            mkReader (VARIABLE_READER (cls self)) (_client self)
              (_path self) (metadata self)
              (tagged "coord" name (_params self)) s (_route self))
         (da_coords (macro (structure self))) [] k) as H.
    cbv beta iota in H. rewrite H. simpl. intuition.
  - intros name source Hin.
    pose proof
      (build_loop_In (fun _ => false)
         (fun name s =>
            mkReader (VARIABLE_READER (cls self)) (_client self)
              (_path self) (metadata self)
              (tagged "coord" name (_params self)) s (_route self))
         (da_coords (macro (structure self))) [] name source) as H.
    cbv beta iota in H. destruct (H Hin) as [[]|(s & Hs & _ & ->)].
    cbn [_params cls structure].
    split; [apply tagged_lookup|].
    split; [intros key Hkey; now apply tagged_lookup_ne|].
    split; [reflexivity | exact Hs].
Qed.

(** *** Slices and coordinates of a data array *)

Lemma bind_ext {A B : Type} (m : M Client Metadata A)
    (f g : A -> M Client Metadata B) :
  (forall a, f a = g a) -> (x <- m ;; f x) = (x <- m ;; g x).
Proof.
  intros Hfg. destruct m as [t [a|e]]; simpl; [|reflexivity].
  now rewrite Hfg.
Qed.

(** Where the tuple is not longer than the list of coordinates, the loop of
    [read] is what the specification words: each coordinate is read with
    the entry at its position, or with select-everything past the end of
    the tuple. *)
Lemma read_coords_default_fill (self : DataArrayReader Client Metadata)
    (slice : list slice_item) (coords : list (string * VariableStructure))
    (acc : list (string * xarray_Variable Raw)) :
  (length slice <= length coords)%nat ->
  DataArrayReader_read_coords array_read self (zip_longest slice coords) acc
  = read_coords_paired array_read self slice coords acc.
Proof.
  revert slice acc.
  induction coords as [|[name v] coords IH]; intros slice acc Hlen.
  - destruct slice; [reflexivity | simpl in Hlen; lia].
  - destruct slice as [|s slice]; simpl.
    + apply bind_ext. intros x. apply (IH []). simpl. lia.
    + apply bind_ext. intros x. apply IH. simpl in Hlen. lia.
Qed.

Lemma read_default_fill (self : DataArrayReader Client Metadata)
    (slice : slice_arg) :
  (length (normalize_slice slice)
   <= length (da_coords (macro (structure self))))%nat ->
  DataArrayReader_read array_read self slice
  = DataArrayReader_read_spec array_read self slice.
Proof.
  intros Hlen. unfold DataArrayReader_read, DataArrayReader_read_spec.
  apply bind_ext. intros data.
  now rewrite read_coords_default_fill.
Qed.

(** Where the tuple is longer, and the leaf readers answer, the loop ends in
    the TypeError of unpacking the fill value. *)
Lemma read_coords_longer_raises (self : DataArrayReader Client Metadata)
    (slice : list slice_item) (coords : list (string * VariableStructure))
    (acc : list (string * xarray_Variable Raw)) :
  (forall a s, exists raw, array_read a s = Returns raw) ->
  (length coords < length slice)%nat ->
  result
    (DataArrayReader_read_coords array_read self (zip_longest slice coords)
       acc)
  = Raises TypeError.
Proof.
  intros Hleaf. revert slice acc.
  induction coords as [|[name v] coords IH]; intros slice acc Hlen.
  - destruct slice; [simpl in Hlen; lia | reflexivity].
  - destruct slice as [|s slice]; [simpl in Hlen; lia|].
    simpl in Hlen. cbn [zip_longest DataArrayReader_read_coords].
    match goal with
    | |- context [VariableReader_read array_read ?r ?sl] =>
        destruct (VariableReader_read_total r sl Hleaf) as (t1 & x & ->)
    end.
    cbn [bind].
    specialize (IH slice (dict_setitem name x acc) ltac:(lia)).
    destruct (DataArrayReader_read_coords array_read self
                (zip_longest slice coords) (dict_setitem name x acc))
      as [t2 r].
    exact IH.
Qed.

Lemma read_longer_slice_raises (self : DataArrayReader Client Metadata)
    (slice : slice_arg) :
  (forall a s, exists raw, array_read a s = Returns raw) ->
  (length (da_coords (macro (structure self)))
   < length (normalize_slice slice))%nat ->
  result (DataArrayReader_read array_read self slice) = Raises TypeError.
Proof.
  intros Hleaf Hlen. unfold DataArrayReader_read.
  match goal with
  | |- context [VariableReader_read array_read ?r ?sl] =>
      destruct (VariableReader_read_total r sl Hleaf) as (t1 & x & ->)
  end.
  cbn [bind].
  pose proof (read_coords_longer_raises self (normalize_slice slice)
                (da_coords (macro (structure self))) [] Hleaf Hlen) as H.
  destruct (DataArrayReader_read_coords array_read self
              (zip_longest (normalize_slice slice)
                 (da_coords (macro (structure self)))) [])
    as [t2 r].
  simpl in H. subst r. reflexivity.
Qed.

(** *** The two policies *)

Lemma dict_setitem_Forall2 {V1 V2 : Type} (P : V1 -> V2 -> Prop)
    (k : string) (v1 : V1) (v2 : V2) (d1 : list (string * V1))
    (d2 : list (string * V2)) :
  P v1 v2 ->
  Forall2 (fun x y => fst x = fst y /\ P (snd x) (snd y)) d1 d2 ->
  Forall2 (fun x y => fst x = fst y /\ P (snd x) (snd y))
    (dict_setitem k v1 d1) (dict_setitem k v2 d2).
Proof.
  intros Hv Hd. induction Hd as [|[k1 x1] [k2 x2] d1 d2 [Hk Hx] Hd IH].
  - simpl. constructor; [auto | constructor].
  - simpl in Hk. subst k2. simpl.
    destruct (String.eqb k k1); constructor; auto.
Qed.

Lemma build_loop_Forall2 {S V1 V2 : Type} (P : V1 -> V2 -> Prop)
    (skip : string -> bool) (make1 : string -> S -> V1)
    (make2 : string -> S -> V2) (items : list (string * S))
    (acc1 : list (string * V1)) (acc2 : list (string * V2)) :
  (forall name s, P (make1 name s) (make2 name s)) ->
  Forall2 (fun x y => fst x = fst y /\ P (snd x) (snd y)) acc1 acc2 ->
  Forall2 (fun x y => fst x = fst y /\ P (snd x) (snd y))
    (fold_left
       (fun acc '(name, s) =>
          if skip name then acc else dict_setitem name (make1 name s) acc)
       items acc1)
    (fold_left
       (fun acc '(name, s) =>
          if skip name then acc else dict_setitem name (make2 name s) acc)
       items acc2).
Proof.
  intros Hmake. revert acc1 acc2.
  induction items as [|[name s] items IH]; intros acc1 acc2 Hacc; simpl.
  - assumption.
  - apply IH. destruct (skip name); [assumption|].
    now apply dict_setitem_Forall2.
Qed.

Lemma read_items_same_call {R1 R2 V : Type}
    (read1 : R1 -> M Client Metadata V) (read2 : R2 -> M Client Metadata V)
    (sources1 : list (string * R1)) (sources2 : list (string * R2))
    (acc : list (string * V)) :
  Forall2
    (fun x y => fst x = fst y /\ same_call (read1 (snd x)) (read2 (snd y)))
    sources1 sources2 ->
  same_call (read_items read1 sources1 acc) (read_items read2 sources2 acc).
Proof.
  intros H. revert acc.
  induction H as [|[k1 r1] [k2 r2] l1 l2 [Hk Hr] _ IH]; intros acc; simpl.
  - apply same_call_refl.
  - simpl in Hk, Hr. subst k2. apply same_call_bind; [assumption|].
    intros x. apply IH.
Qed.

Lemma build_from_iterator_Forall2 {S V1 V2 : Type} (P : V1 -> V2 -> Prop)
    (make1 : string -> S -> V1) (make2 : string -> S -> V2)
    (items : list (string * S)) (columns : list string)
    (acc1 : list (string * V1)) (acc2 : list (string * V2)) :
  (forall name s, P (make1 name s) (make2 name s)) ->
  Forall2 (fun x y => fst x = fst y /\ P (snd x) (snd y)) acc1 acc2 ->
  Forall2 (fun x y => fst x = fst y /\ P (snd x) (snd y))
    (fst (build_from_iterator make1 items columns acc1))
    (fst (build_from_iterator make2 items columns acc2))
  /\ snd (build_from_iterator make1 items columns acc1)
     = snd (build_from_iterator make2 items columns acc2).
Proof.
  intros Hmake. revert columns acc1 acc2.
  induction items as [|[name s] items IH]; intros columns acc1 acc2 Hacc.
  - simpl. auto.
  - simpl. destruct (iterator_contains name columns) as [found columns'].
    destruct found; simpl; apply IH.
    + apply dict_setitem_Forall2; [apply Hmake | assumption].
    + assumption.
Qed.

Section Policies.

(** The deferred and the immediate leaf reader return the same raw data. *)
Hypothesis leaf_read_agrees :
  forall (a : ArrayReader Client Metadata) (s : slice_arg),
    array_read (with_cls ClientDaskArrayReader a) s
    = array_read (with_cls ClientArrayReader a) s.

Hypothesis leaf_read_block_agrees :
  forall (a : ArrayReader Client Metadata) (b : list Z) (s : slice_arg),
    array_read_block (with_cls ClientDaskArrayReader a) b s
    = array_read_block (with_cls ClientArrayReader a) b s.

Lemma VariableReader_read_policy (v : VariableReader Client Metadata)
    (slice : slice_arg) :
  same_call
    (VariableReader_read array_read (with_cls ClientDaskVariableReader v)
       slice)
    (VariableReader_read array_read (with_cls ClientVariableReader v) slice).
Proof.
  unfold VariableReader_read. apply same_call_bind.
  - split; simpl.
    + constructor; [split; reflexivity | constructor].
    + exact (leaf_read_agrees
               (mkReader ClientDaskArrayReader (_client v) (_path v)
                  (metadata v) (_params v) (data (macro (structure v)))
                  (_route v)) slice).
  - intros d. apply same_call_refl.
Qed.

Lemma VariableReader_read_block_policy (v : VariableReader Client Metadata)
    (block : list Z) (slice : slice_arg) :
  same_call
    (VariableReader_read_block array_read_block
       (with_cls ClientDaskVariableReader v) block slice)
    (VariableReader_read_block array_read_block
       (with_cls ClientVariableReader v) block slice).
Proof.
  unfold VariableReader_read_block. split; simpl.
  - constructor; [repeat split | constructor].
  - exact (leaf_read_block_agrees
             (mkReader ClientDaskArrayReader (_client v) (_path v)
                (metadata v) (_params v) (data (macro (structure v)))
                (_route v)) block slice).
Qed.

Lemma DataArrayReader_read_coords_policy
    (a : DataArrayReader Client Metadata)
    (pairs : list (option slice_item * option (string * VariableStructure)))
    (acc : list (string * xarray_Variable Raw)) :
  same_call
    (DataArrayReader_read_coords array_read
       (with_cls ClientDaskDataArrayReader a) pairs acc)
    (DataArrayReader_read_coords array_read
       (with_cls ClientDataArrayReader a) pairs acc).
Proof.
  revert acc.
  induction pairs as [|[coord_slice [[name v]|]] pairs IH]; intros acc.
  - apply same_call_refl.
  - cbn [DataArrayReader_read_coords]. apply same_call_bind.
    + exact (VariableReader_read_policy
               (mkReader ClientDaskVariableReader (_client a) (_path a)
                  (metadata a) (tagged "coord" name (_params a)) v
                  (_route a))
               (SliceOne (default slice_all coord_slice))).
    + intros x. apply IH.
  - apply same_call_refl.
Qed.

Lemma DataArrayReader_read_policy (a : DataArrayReader Client Metadata)
    (slice : slice_arg) :
  same_call
    (DataArrayReader_read array_read (with_cls ClientDaskDataArrayReader a)
       slice)
    (DataArrayReader_read array_read (with_cls ClientDataArrayReader a)
       slice).
Proof.
  unfold DataArrayReader_read. apply same_call_bind.
  - exact (VariableReader_read_policy
             (mkReader ClientDaskVariableReader (_client a) (_path a)
                (metadata a) (_params a) (variable (macro (structure a)))
                (_route a))
             (SliceSeq (normalize_slice slice))).
  - intros data. apply same_call_bind.
    + apply DataArrayReader_read_coords_policy.
    + intros coords. apply same_call_refl.
Qed.

Lemma DataArrayReader_read_block_policy
    (a : DataArrayReader Client Metadata) (block : list Z)
    (slice : slice_arg) :
  same_call
    (DataArrayReader_read_block array_read_block
       (with_cls ClientDaskDataArrayReader a) block slice)
    (DataArrayReader_read_block array_read_block
       (with_cls ClientDataArrayReader a) block slice).
Proof.
  unfold DataArrayReader_read_block.
  exact (VariableReader_read_block_policy
           (mkReader ClientDaskVariableReader (_client a) (_path a)
              (metadata a) (_params a) (variable (macro (structure a)))
              (_route a))
           block slice).
Qed.

Lemma DatasetReader_read_policy (d : DatasetReader Client Metadata)
    (columns : option (list string)) :
  same_call
    (DatasetReader_read array_read (with_cls ClientDaskDatasetReader d)
       columns)
    (DatasetReader_read array_read (with_cls ClientDatasetReader d) columns).
Proof.
  unfold DatasetReader_read. apply same_call_bind.
  - apply read_items_same_call.
    unfold DatasetReader_build_data_vars.
    apply (build_loop_Forall2
             (fun r1 r2 =>
                same_call (DataArrayReader_read array_read r1 SliceNone)
                  (DataArrayReader_read array_read r2 SliceNone))
             (filtered_out columns)
             (fun name s =>
                mkReader
                  (DATA_ARRAY_READER
                     (cls (with_cls ClientDaskDatasetReader d)))
                  (_client d) (_path d) (metadata d)
                  (tagged "variable" name (_params d)) s (_route d))
             (fun name s =>
                mkReader
                  (DATA_ARRAY_READER (cls (with_cls ClientDatasetReader d)))
                  (_client d) (_path d) (metadata d)
                  (tagged "variable" name (_params d)) s (_route d))).
    + intros name s.
      exact (DataArrayReader_read_policy
               (mkReader ClientDaskDataArrayReader (_client d) (_path d)
                  (metadata d) (tagged "variable" name (_params d)) s
                  (_route d))
               SliceNone).
    + constructor.
  - intros dv. apply same_call_bind.
    + apply read_items_same_call.
      unfold DatasetReader_build_coords.
      apply (build_loop_Forall2
               (fun r1 r2 =>
                  same_call (VariableReader_read array_read r1 SliceNone)
                    (VariableReader_read array_read r2 SliceNone))
               (filtered_out columns)
               (fun name s =>
                  mkReader
                    (DATASET_VARIABLE_READER
                       (cls (with_cls ClientDaskDatasetReader d)))
                    (_client d) (_path d) (metadata d)
                    (tagged "variable" name (_params d)) s (_route d))
               (fun name s =>
                  mkReader
                    (DATASET_VARIABLE_READER
                       (cls (with_cls ClientDatasetReader d)))
                    (_client d) (_path d) (metadata d)
                    (tagged "variable" name (_params d)) s (_route d))).
      * intros name s.
        exact (VariableReader_read_policy
                 (mkReader ClientDaskVariableReader (_client d) (_path d)
                    (metadata d) (tagged "variable" name (_params d)) s
                    (_route d))
                 SliceNone).
      * constructor.
    + intros cs. apply same_call_refl.
Qed.

Lemma DatasetReader_read_iter_policy (d : DatasetReader Client Metadata)
    (columns : list string) :
  same_call
    (DatasetReader_read_iter array_read (with_cls ClientDaskDatasetReader d)
       columns)
    (DatasetReader_read_iter array_read (with_cls ClientDatasetReader d)
       columns).
Proof.
  unfold DatasetReader_read_iter, DatasetReader_build_data_vars_iter,
    DatasetReader_build_coords_iter.
  match goal with
  | |- context [build_from_iterator ?m1 ?items columns []] =>
      set (b1 := build_from_iterator m1 items columns [])
  end.
  match goal with
  | |- context [build_from_iterator ?m2 ?items columns []] =>
      set (b2 := build_from_iterator m2 items columns [])
  end.
  assert (Forall2
            (fun x y =>
               fst x = fst y
               /\ same_call (DataArrayReader_read array_read (snd x) SliceNone)
                    (DataArrayReader_read array_read (snd y) SliceNone))
            (fst b1) (fst b2)
          /\ snd b1 = snd b2) as [Hdv Hrest].
  { apply (build_from_iterator_Forall2
             (fun r1 r2 =>
                same_call (DataArrayReader_read array_read r1 SliceNone)
                  (DataArrayReader_read array_read r2 SliceNone))).
    - intros name s.
      exact (DataArrayReader_read_policy
               (mkReader ClientDaskDataArrayReader (_client d) (_path d)
                  (metadata d) (tagged "variable" name (_params d)) s
                  (_route d))
               SliceNone).
    - constructor. }
  destruct b1 as [dv1 rest1], b2 as [dv2 rest2]. simpl in Hdv, Hrest.
  subst rest2.
  match goal with
  | |- context [build_from_iterator ?m1 ?items rest1 []] =>
      set (c1 := build_from_iterator m1 items rest1 [])
  end.
  match goal with
  | |- context [build_from_iterator ?m2 ?items rest1 []] =>
      set (c2 := build_from_iterator m2 items rest1 [])
  end.
  assert (Forall2
            (fun x y =>
               fst x = fst y
               /\ same_call (VariableReader_read array_read (snd x) SliceNone)
                    (VariableReader_read array_read (snd y) SliceNone))
            (fst c1) (fst c2)
          /\ snd c1 = snd c2) as [Hcs _].
  { apply (build_from_iterator_Forall2
             (fun r1 r2 =>
                same_call (VariableReader_read array_read r1 SliceNone)
                  (VariableReader_read array_read r2 SliceNone))).
    - intros name s.
      exact (VariableReader_read_policy
               (mkReader ClientDaskVariableReader (_client d) (_path d)
                  (metadata d) (tagged "variable" name (_params d)) s
                  (_route d))
               SliceNone).
    - constructor. }
  destruct c1 as [cs1 rest3], c2 as [cs2 rest4]. simpl in Hcs.
  apply same_call_bind.
  - apply read_items_same_call. exact Hdv.
  - intros dv. apply same_call_bind.
    + apply read_items_same_call. exact Hcs.
    + intros cs. apply same_call_refl.
Qed.

(** C9: the deferred and the immediate variant of a reader run the same
    code and differ in the class of the leaf array reader only.  When the
    two leaf readers return the same raw data, [read], [read_block],
    indexing, [length] and iteration of the two variants of a variable, a
    data-array and a dataset reader send the same requests and end in the
    same result. *)
Theorem policies_compose_identically
    (v : VariableReader Client Metadata)
    (a : DataArrayReader Client Metadata)
    (d : DatasetReader Client Metadata)
    (slice : slice_arg) (block : list Z) (columns : option (list string))
    (key : dataset_key) :
  same_call
    (VariableReader_read array_read (with_cls ClientDaskVariableReader v)
       slice)
    (VariableReader_read array_read (with_cls ClientVariableReader v) slice)
  /\ same_call
       (VariableReader_read_block array_read_block
          (with_cls ClientDaskVariableReader v) block slice)
       (VariableReader_read_block array_read_block
          (with_cls ClientVariableReader v) block slice)
  /\ same_call
       (VariableReader_getitem array_read
          (with_cls ClientDaskVariableReader v) slice)
       (VariableReader_getitem array_read (with_cls ClientVariableReader v)
          slice)
  /\ VariableReader_len (with_cls ClientDaskVariableReader v)
     = VariableReader_len (with_cls ClientVariableReader v)
  /\ same_call
       (DataArrayReader_read array_read
          (with_cls ClientDaskDataArrayReader a) slice)
       (DataArrayReader_read array_read (with_cls ClientDataArrayReader a)
          slice)
  /\ same_call
       (DataArrayReader_read_block array_read_block
          (with_cls ClientDaskDataArrayReader a) block slice)
       (DataArrayReader_read_block array_read_block
          (with_cls ClientDataArrayReader a) block slice)
  /\ same_call
       (DataArrayReader_getitem array_read
          (with_cls ClientDaskDataArrayReader a) slice)
       (DataArrayReader_getitem array_read
          (with_cls ClientDataArrayReader a) slice)
  /\ DataArrayReader_len (with_cls ClientDaskDataArrayReader a)
     = DataArrayReader_len (with_cls ClientDataArrayReader a)
  /\ same_call
       (DatasetReader_read array_read (with_cls ClientDaskDatasetReader d)
          columns)
       (DatasetReader_read array_read (with_cls ClientDatasetReader d)
          columns)
  /\ same_call
       (DatasetReader_getitem array_read xarray_Dataset_getitem
          (with_cls ClientDaskDatasetReader d) key)
       (DatasetReader_getitem array_read xarray_Dataset_getitem
          (with_cls ClientDatasetReader d) key)
  /\ DatasetReader_iter (with_cls ClientDaskDatasetReader d)
     = DatasetReader_iter (with_cls ClientDatasetReader d).
Proof.
  repeat split.
  - apply VariableReader_read_policy.
  - apply VariableReader_read_policy.
  - apply VariableReader_read_block_policy.
  - apply VariableReader_read_block_policy.
  - apply VariableReader_read_policy.
  - apply VariableReader_read_policy.
  - apply DataArrayReader_read_policy.
  - apply DataArrayReader_read_policy.
  - apply DataArrayReader_read_block_policy.
  - apply DataArrayReader_read_block_policy.
  - apply DataArrayReader_read_policy.
  - apply DataArrayReader_read_policy.
  - apply DatasetReader_read_policy.
  - apply DatasetReader_read_policy.
  - destruct key as [k|ks|ks]; unfold DatasetReader_getitem;
      (apply same_call_bind;
       [first [apply DatasetReader_read_policy
              | apply DatasetReader_read_iter_policy]
       | intros x; apply same_call_refl]).
  - destruct key as [k|ks|ks]; unfold DatasetReader_getitem;
      (apply same_call_bind;
       [first [apply DatasetReader_read_policy
              | apply DatasetReader_read_iter_policy]
       | intros x; apply same_call_refl]).
Qed.

End Policies.

End Properties.

(** ** The sample service *)

Example len_of_temp :
  DataArrayReader_len temp_reader = ret 10
  /\ VariableReader_len scalar_reader = raise IndexError.
Proof.
  split; reflexivity.
Qed.

Lemma iter_yields_data_var_names_witness :
  DatasetReader_iter dataset_reader = ret ["temp"]
  /\ dict_keys
       (DatasetReader_build_coords dataset_reader
          (macro (structure dataset_reader)) (Some ["x"]))
     = ["x"].
Proof.
  destruct (iter_yields_data_var_names dataset_reader) as [Hiter Hcoord].
  split; [exact Hiter|].
  apply (Hcoord "x").
  - simpl. left. reflexivity.
  - simpl. intros [H|[]]. discriminate H.
Defined.

Lemma columns_filter_limits_instantiation_witness :
  In "temp"
    (dict_keys
       (DatasetReader_build_data_vars dataset_reader
          (macro (structure dataset_reader)) (Some ["temp"; "x"])))
  /\ In "temp" ["temp"; "x"].
Proof.
  assert (In "temp"
            (dict_keys
               (DatasetReader_build_data_vars dataset_reader
                  (macro (structure dataset_reader)) (Some ["temp"; "x"]))))
    as H by (simpl; left; reflexivity).
  split; [exact H|].
  exact (proj1
           (columns_filter_limits_instantiation echo_read dataset_reader
              ["temp"; "x"]) "temp" H).
Defined.

Lemma read_none_versus_empty_columns_witness :
  exists t d, DatasetReader_read echo_read dataset_reader None = (t, Returns d).
Proof.
  apply (proj2 (proj2 (read_none_versus_empty_columns echo_read
                         dataset_reader))).
  intros a s. eexists. reflexivity.
Defined.



(** C5 does not hold as stated: for the name "pressure", which the sample
    structure does not have, no sub-reader is made, nothing is raised where
    sub-readers are made, and [read(columns=["pressure"])] returns. *)
Lemma absent_name_raises_nothing :
  ~ In "pressure" (dict_keys (data_vars (macro (structure dataset_reader))))
  /\ ~ In "pressure"
         (dict_keys (ds_coords (macro (structure dataset_reader))))
  /\ ~ (exists t e,
          DatasetReader_read echo_read dataset_reader (Some ["pressure"])
          = (t, Raises e)).
Proof.
  split; [|split].
  - simpl. intros [H|[]]. discriminate H.
  - simpl. intros [H|[H|[]]]; discriminate H.
  - intros (t & e & H). vm_compute in H. discriminate H.
Qed.

Lemma absent_name_is_skipped_witness :
  DatasetReader_read echo_read dataset_reader (Some ["pressure"])
  = ret (mkDataset [] [] (ds_attrs (macro (structure dataset_reader))))
  /\ DatasetReader_getitem echo_read echo_getitem dataset_reader
       (KeyStr "pressure")
     = raise KeyError.
Proof.
  destruct (absent_name_is_skipped echo_read echo_getitem dataset_reader
              "pressure")
    as (_ & _ & Hread & Hitem & _).
  - simpl. intros [H|[]]. discriminate H.
  - simpl. intros [H|[H|[]]]; discriminate H.
  - split; [exact Hread|]. rewrite Hitem. reflexivity.
Defined.

(** C8 does not hold as stated: the reader of "temp" whose own parameters
    have [coord = "z"] makes the sub-reader of coordinate "x" with
    [coord = "z"], not [coord = "x"]. *)
Lemma coords_tag_is_overridden :
  ~ (forall m name source,
       DataArrayReader_coords preset_reader = ret m ->
       In (name, source) m ->
       _params source !! "coord" = Some name).
Proof.
  intros H.
  specialize (H _ "x" _ eq_refl (or_introl eq_refl)).
  vm_compute in H. discriminate H.
Qed.

Lemma coords_maps_names_to_tagged_readers_witness :
  exists m source,
    DataArrayReader_coords temp_reader = ret m
    /\ In ("x", source) m
    /\ _params source !! "coord" = Some "x".
Proof.
  destruct (coords_maps_names_to_tagged_readers temp_reader)
    as (m & Hm & _ & Hsource).
  unfold DataArrayReader_coords, ret in Hm.
  injection Hm as Hm. subst m.
  eexists. eexists. split; [reflexivity|].
  split; [left; reflexivity|].
  match goal with
  | |- _params ?source !! _ = _ =>
      exact (proj1 (Hsource "x" source (or_introl eq_refl)))
  end.
Defined.

Lemma policies_compose_identically_witness :
  same_call
    (DatasetReader_read echo_read
       (with_cls ClientDaskDatasetReader dataset_reader) None)
    (DatasetReader_read echo_read
       (with_cls ClientDatasetReader dataset_reader) None)
  /\ same_call
       (DataArrayReader_read echo_read
          (with_cls ClientDaskDataArrayReader temp_reader)
          (SliceOne slice_0_5))
       (DataArrayReader_read echo_read
          (with_cls ClientDataArrayReader temp_reader) (SliceOne slice_0_5)).
Proof.
  pose proof
    (policies_compose_identically echo_read echo_read_block echo_getitem
       (fun a s => eq_refl) (fun a b s => eq_refl)
       scalar_reader temp_reader dataset_reader (SliceOne slice_0_5) [0]
       None (KeyStr "temp")) as H.
  split.
  - exact (proj1 (proj2 (proj2 (proj2 (proj2 (proj2 (proj2 (proj2
             (proj2 H))))))))).
  - exact (proj1 (proj2 (proj2 (proj2 (proj2 H))))).
Defined.

(** ** Slice tuples longer than the coordinates *)

(** C1 at the call [read((slice(0, 5), slice(0, 5)))] on "temp" with a
    coordinate for "x" only: the data and the coordinate "x" are read, then
    the call raises TypeError instead of returning a DataArray. *)
Lemma read_two_slices_one_coordinate :
  DataArrayReader_read echo_read temp_x_reader
    (SliceSeq [slice_0_5; slice_0_5])
  = ([ReadRequest
        (sample_reader ClientDaskArrayReader ∅ (sample_array [10; 5])
           "/data_array/block")
        (SliceSeq [slice_0_5; slice_0_5]);
      ReadRequest
        (sample_reader ClientDaskArrayReader {[ "coord" := "x" ]}
           (sample_array [10]) "/data_array/block")
        (SliceOne slice_0_5)],
     Raises TypeError).
Proof.
  vm_compute. reflexivity.
Qed.

(** C2 at the call [reader[0:5]] on a one-dimensional array without
    coordinates: one slice, no coordinate, and the call raises TypeError. *)
Lemma read_one_slice_no_coordinate :
  result (DataArrayReader_getitem echo_read bare_reader (SliceOne slice_0_5))
  = Raises TypeError
  /\ (length (da_coords (macro (structure bare_reader)))
      < length (normalize_slice (SliceOne slice_0_5)))%nat.
Proof.
  split; [reflexivity | simpl; lia].
Qed.

(** ** Requests and results of the readers *)


Section Requests.

Context {Client Metadata Raw : Type}.

Variable array_read : ArrayReader Client Metadata -> slice_arg -> outcome Raw.
Variable array_read_block :
  ArrayReader Client Metadata -> list Z -> slice_arg -> outcome Raw.

Lemma trace_bind_Forall {A B : Type} (P : event Client Metadata -> Prop)
    (m : M Client Metadata A) (f : A -> M Client Metadata B) :
  Forall P (trace m) -> (forall a, Forall P (trace (f a))) ->
  Forall P (trace (x <- m ;; f x)).
Proof.
  destruct m as [t1 [a|e1]]; simpl; intros Hm Hf; [|exact Hm].
  specialize (Hf a). destruct (f a) as [t2 r]. simpl in *.
  apply Forall_app. split; assumption.
Qed.

(** One call of [read] on a variable reader: one request, the labels of
    the structure around the data, the leaf's exception as it is. *)
Lemma VariableReader_read_eq (v : VariableReader Client Metadata)
    (slice : slice_arg) :
  VariableReader_read array_read v slice
  = ([ReadRequest (VariableReader_array_source v) slice],
     match array_read (VariableReader_array_source v) slice with
     | Returns raw =>
         Returns
           (mkVariable (dims (macro (structure v))) raw
              (attrs (macro (structure v))))
     | Raises e => Raises e
     end).
Proof.
  unfold VariableReader_read, ArrayReader_read, VariableReader_array_source.
  simpl. destruct (array_read _ slice); reflexivity.
Qed.

Lemma read_coords_returns (self : DataArrayReader Client Metadata)
    (coords : list (string * VariableStructure)) (slice : list slice_item)
    (acc d : list (string * xarray_Variable Raw))
    (t : list (event Client Metadata)) :
  DataArrayReader_read_coords array_read self (zip_longest slice coords) acc
  = (t, Returns d) ->
  (length slice <= length coords)%nat
  /\ t = map (coord_request self)
           (combine
              (slice ++ repeat slice_all (length coords - length slice))
              coords)
  /\ (forall k,
        In k (dict_keys d) <-> In k (dict_keys acc) \/ In k (dict_keys coords))
  /\ (forall k x,
        In (k, x) d ->
        In (k, x) acc
        \/ exists vs,
             In (k, vs) coords
             /\ var_dims x = dims (macro vs)
             /\ var_attrs x = attrs (macro vs)).
Proof.
  revert slice acc t d.
  induction coords as [|[name vs] coords IH]; intros slice acc t d H.
  - destruct slice as [|s slice]; simpl in H.
    + unfold ret in H. inversion H; subst. simpl.
      repeat split; auto; intuition.
    + unfold raise in H. discriminate H.
  - assert (forall s0 slice0,
              (x <- VariableReader_read array_read
                      (DataArrayReader_coord_source self name vs)
                      (SliceOne s0) ;;
               DataArrayReader_read_coords array_read self
                 (zip_longest slice0 coords) (dict_setitem name x acc))
              = (t, Returns d) ->
              (length slice0 <= length coords)%nat ->
              t = coord_request self (s0, (name, vs))
                  :: map (coord_request self)
                       (combine
                          (slice0
                           ++ repeat slice_all
                                (length coords - length slice0))
                          coords)
              /\ (forall k,
                    In k (dict_keys d)
                    <-> In k (dict_keys acc)
                        \/ In k (dict_keys ((name, vs) :: coords)))
              /\ (forall k x,
                    In (k, x) d ->
                    In (k, x) acc
                    \/ exists vs',
                         In (k, vs') ((name, vs) :: coords)
                         /\ var_dims x = dims (macro vs')
                         /\ var_attrs x = attrs (macro vs'))) as Hstep.
    { intros s0 slice0 Hb _.
      apply bind_returns in Hb.
      destruct Hb as (t1 & x & t2 & Hv & Hrest & ->).
      rewrite VariableReader_read_eq in Hv.
      injection Hv as <- Hx.
      apply IH in Hrest. destruct Hrest as (_ & -> & Hkeys & Hin).
      split; [reflexivity|]. split.
      - intros k. rewrite Hkeys, dict_keys_setitem. simpl. intuition.
      - intros k y Hy. apply Hin in Hy.
        destruct Hy as [Hy|(vs' & Hvs & Hd & Ha)].
        + apply dict_setitem_In in Hy. destruct Hy as [[-> ->]|Hy]; [|auto].
          right. exists vs. split; [simpl; auto|].
          destruct (array_read _ _); [|discriminate Hx].
          injection Hx as <-. split; reflexivity.
        + right. exists vs'. simpl. auto. }
    destruct slice as [|s slice].
    + destruct (Hstep slice_all [] H) as (Ht & Hk & Hi); [simpl; lia|].
      split; [simpl; lia|]. split; [|split; assumption].
      rewrite Ht. simpl. now rewrite Nat.sub_0_r.
    + assert (length slice <= length coords)%nat as Hlen.
      { apply bind_returns in H.
        destruct H as (t1 & x & t2 & _ & Hrest & _).
        apply IH in Hrest. tauto. }
      destruct (Hstep s slice H Hlen) as (Ht & Hk & Hi).
      split; [simpl; lia|]. split; [|split; assumption].
      rewrite Ht. reflexivity.
Qed.

(** X1: when [read] of a data-array reader returns, the slice tuple is not
    longer than the coordinates and the call has sent exactly one request
    for the main data with the whole tuple, then one request per coordinate
    in the order of the structure, each with the entry at its position or
    [slice(None, None)] past the end of the tuple. *)
Theorem read_returns_after_these_requests
    (self : DataArrayReader Client Metadata) (slice : slice_arg)
    (t : list (event Client Metadata)) (da : xarray_DataArray Raw) :
  DataArrayReader_read array_read self slice = (t, Returns da) ->
  (length (normalize_slice slice)
   <= length (da_coords (macro (structure self))))%nat
  /\ t = ReadRequest
           (VariableReader_array_source
              (DataArrayReader_variable_source self))
           (SliceSeq (normalize_slice slice))
         :: map (coord_request self)
              (combine
                 (normalize_slice slice
                  ++ repeat slice_all
                       (length (da_coords (macro (structure self)))
                        - length (normalize_slice slice)))
                 (da_coords (macro (structure self))))
  /\ length t = S (length (da_coords (macro (structure self)))).
Proof.
  intros H. unfold DataArrayReader_read in H. apply bind_returns in H.
  destruct H as (t1 & data & t2 & Hv & H & ->).
  change (VariableReader_read array_read
            (DataArrayReader_variable_source self)
            (SliceSeq (normalize_slice slice)) = (t1, Returns data)) in Hv.
  rewrite VariableReader_read_eq in Hv. injection Hv as <- _.
  apply bind_returns in H. destruct H as (t3 & cs & t4 & Hc & H & ->).
  unfold ret in H. inversion H; subst.
  apply read_coords_returns in Hc. destruct Hc as (Hlen & -> & _).
  split; [exact Hlen|]. rewrite app_nil_r. split; [reflexivity|].
  simpl. f_equal.
  rewrite length_map, length_combine, length_app, repeat_length. lia.
Qed.

(** X2: when [read] of a data-array reader returns, the DataArray carries
    the name of the structure; its data has the dims and attrs of the main
    variable and the raw data the leaf reader returned for the whole tuple;
    it has a coordinate under exactly the coordinate names of the structure,
    each with the dims and attrs of a coordinate of that name. *)
Theorem read_returns_labelled_data
    (self : DataArrayReader Client Metadata) (slice : slice_arg)
    (t : list (event Client Metadata)) (da : xarray_DataArray Raw) :
  DataArrayReader_read array_read self slice = (t, Returns da) ->
  dataarray_name da = name (macro (structure self))
  /\ var_dims (dataarray_data da)
     = dims (macro (variable (macro (structure self))))
  /\ var_attrs (dataarray_data da)
     = attrs (macro (variable (macro (structure self))))
  /\ array_read
       (VariableReader_array_source (DataArrayReader_variable_source self))
       (SliceSeq (normalize_slice slice))
     = Returns (var_data (dataarray_data da))
  /\ (forall k,
        In k (dict_keys (dataarray_coords da))
        <-> In k (dict_keys (da_coords (macro (structure self)))))
  /\ (forall k x,
        In (k, x) (dataarray_coords da) ->
        exists vs,
          In (k, vs) (da_coords (macro (structure self)))
          /\ var_dims x = dims (macro vs)
          /\ var_attrs x = attrs (macro vs)).
Proof.
  intros H. unfold DataArrayReader_read in H. apply bind_returns in H.
  destruct H as (t1 & data & t2 & Hv & H & ->).
  change (VariableReader_read array_read
            (DataArrayReader_variable_source self)
            (SliceSeq (normalize_slice slice)) = (t1, Returns data)) in Hv.
  rewrite VariableReader_read_eq in Hv. injection Hv as _ Hx.
  apply bind_returns in H. destruct H as (t3 & cs & t4 & Hc & H & ->).
  unfold ret in H. inversion H; subst. simpl.
  apply read_coords_returns in Hc. destruct Hc as (_ & _ & Hkeys & Hin).
  destruct (array_read _ _) as [raw|e] eqn:Hraw; [|discriminate Hx].
  injection Hx as <-. simpl.
  split; [reflexivity|]. split; [reflexivity|]. split; [reflexivity|].
  split; [reflexivity|]. split.
  - intros k. rewrite Hkeys. simpl. intuition.
  - intros k x Hk. destruct (Hin k x Hk) as [[]|Hvs]. exact Hvs.
Qed.

Lemma read_items_trace_Forall {R V : Type}
    (P : event Client Metadata -> Prop) (read : R -> M Client Metadata V)
    (sources : list (string * R)) (acc : list (string * V)) :
  (forall k r, In (k, r) sources -> Forall P (trace (read r))) ->
  Forall P (trace (read_items read sources acc)).
Proof.
  revert acc. induction sources as [|[k0 r0] sources IH]; intros acc Hall.
  - constructor.
  - simpl. apply trace_bind_Forall.
    + apply (Hall k0). simpl. auto.
    + intros x. apply IH. intros k r Hin. apply (Hall k). simpl. auto.
Qed.

Lemma read_coords_requests (self : DataArrayReader Client Metadata)
    (pairs : list (option slice_item * option (string * VariableStructure)))
    (acc : list (string * xarray_Variable Raw)) :
  Forall
    (fun ev =>
       request_of self (ARRAY_READER (VARIABLE_READER (cls self))) ev
       /\ forall key,
            key <> "coord" ->
            _params (request_source ev) !! key = _params self !! key)
    (trace (DataArrayReader_read_coords array_read self pairs acc)).
Proof.
  revert acc.
  induction pairs as [|[coord_slice [[name vs]|]] pairs IH]; intros acc.
  - constructor.
  - cbn [DataArrayReader_read_coords]. apply trace_bind_Forall.
    + change (Forall
                (fun ev =>
                   request_of self
                     (ARRAY_READER (VARIABLE_READER (cls self))) ev
                   /\ forall key,
                        key <> "coord" ->
                        _params (request_source ev) !! key
                        = _params self !! key)
                (trace
                   (VariableReader_read array_read
                      (DataArrayReader_coord_source self name vs)
                      (SliceOne (default slice_all coord_slice))))).
      rewrite VariableReader_read_eq. simpl.
      constructor; [|constructor].
      split; [repeat split|].
      intros key Hkey. simpl. now apply tagged_lookup_ne.
    + intros x. apply IH.
  - constructor.
Qed.

Lemma DataArrayReader_read_requests (self : DataArrayReader Client Metadata)
    (slice : slice_arg) :
  Forall
    (fun ev =>
       request_of self (ARRAY_READER (VARIABLE_READER (cls self))) ev
       /\ forall key,
            key <> "coord" ->
            _params (request_source ev) !! key = _params self !! key)
    (trace (DataArrayReader_read array_read self slice)).
Proof.
  unfold DataArrayReader_read. apply trace_bind_Forall.
  - change (Forall
              (fun ev =>
                 request_of self
                   (ARRAY_READER (VARIABLE_READER (cls self))) ev
                 /\ forall key,
                      key <> "coord" ->
                      _params (request_source ev) !! key
                      = _params self !! key)
              (trace
                 (VariableReader_read array_read
                    (DataArrayReader_variable_source self)
                    (SliceSeq (normalize_slice slice))))).
    rewrite VariableReader_read_eq. simpl.
    constructor; [|constructor].
    split; [repeat split|]. intros key Hkey. reflexivity.
  - intros data. apply trace_bind_Forall.
    + apply read_coords_requests.
    + intros cs. constructor.
Qed.

Lemma leaf_class_of_dataset (c : dataset_reader_class) :
  ARRAY_READER (VARIABLE_READER (DATA_ARRAY_READER c))
  = ARRAY_READER (DATASET_VARIABLE_READER c).
Proof.
  destruct c; reflexivity.
Qed.

Lemma DatasetReader_read_requests (self : DatasetReader Client Metadata)
    (columns : option (list string)) :
  Forall
    (fun ev =>
       request_of self (ARRAY_READER (DATASET_VARIABLE_READER (cls self))) ev
       /\ (forall key,
             key <> "coord" -> key <> "variable" ->
             _params (request_source ev) !! key = _params self !! key)
       /\ exists name,
            (In name (dict_keys (data_vars (macro (structure self))))
             \/ In name (dict_keys (ds_coords (macro (structure self)))))
            /\ filtered_out columns name = false
            /\ _params (request_source ev) !! "variable"
               = Some (default name (_params self !! "variable")))
    (trace (DatasetReader_read array_read self columns)).
Proof.
  unfold DatasetReader_read. apply trace_bind_Forall.
  - apply read_items_trace_Forall. intros k r Hin.
    pose proof
      (build_loop_In (filtered_out columns)
         (fun name s =>
            mkReader (DATA_ARRAY_READER (cls self)) (_client self)
              (_path self) (metadata self)
              (tagged "variable" name (_params self)) s (_route self))
         (data_vars (macro (structure self))) [] k r) as H.
    cbv beta in H. destruct (H Hin) as [[]|(s & Hs & Hskip & ->)].
    eapply Forall_impl; [apply DataArrayReader_read_requests|].
    intros ev [(Hc & Hp & Hm & Hr & Hl) Hparams]. simpl in *.
    split; [|split].
    + unfold request_of. rewrite <- leaf_class_of_dataset. auto.
    + intros key Hkey Hkey'. rewrite Hparams by assumption.
      now apply tagged_lookup_ne.
    + exists k. split; [left; apply in_map_iff; exists (k, s); auto|].
      split; [assumption|].
      rewrite Hparams by discriminate. apply tagged_lookup.
  - intros dv. apply trace_bind_Forall; [|intros cs; constructor].
    apply read_items_trace_Forall. intros k r Hin.
    pose proof
      (build_loop_In (filtered_out columns)
         (fun name s =>
            mkReader (DATASET_VARIABLE_READER (cls self)) (_client self)
              (_path self) (metadata self)
              (tagged "variable" name (_params self)) s (_route self))
         (ds_coords (macro (structure self))) [] k r) as H.
    cbv beta in H. destruct (H Hin) as [[]|(s & Hs & Hskip & ->)].
    rewrite VariableReader_read_eq. simpl.
    constructor; [|constructor]. split; [repeat split|]. split.
    + intros key _ Hkey'. simpl. now apply tagged_lookup_ne.
    + exists k. split; [right; apply in_map_iff; exists (k, s); auto|].
      split; [assumption|]. simpl. apply tagged_lookup.
Qed.

(** X4: every request that [read] of a data-array reader sends goes to a
    leaf reader of the variant's class, with the transport handle, path,
    metadata and route of the data-array reader itself, and with its
    parameters, to which only [coord] may have been added. *)
Theorem data_array_requests_inherit_the_reader
    (self : DataArrayReader Client Metadata) (slice : slice_arg) :
  Forall
    (fun ev =>
       request_of self (ARRAY_READER (VARIABLE_READER (cls self))) ev
       /\ forall key,
            key <> "coord" ->
            _params (request_source ev) !! key = _params self !! key)
    (trace (DataArrayReader_read array_read self slice)).
Proof.
  apply DataArrayReader_read_requests.
Qed.

(** X5: every request that [read] of a dataset reader sends, for a data
    variable, for one of its coordinates or for a coordinate of the
    dataset, goes to a leaf reader of the variant's class, with the
    transport handle, path, metadata and route of the dataset reader; apart
    from [coord] and [variable] the parameters are those of the dataset
    reader. *)
Theorem dataset_requests_inherit_the_reader
    (self : DatasetReader Client Metadata) (columns : option (list string)) :
  Forall
    (fun ev =>
       request_of self (ARRAY_READER (DATASET_VARIABLE_READER (cls self))) ev
       /\ forall key,
            key <> "coord" -> key <> "variable" ->
            _params (request_source ev) !! key = _params self !! key)
    (trace (DatasetReader_read array_read self columns)).
Proof.
  eapply Forall_impl; [apply DatasetReader_read_requests|].
  intros ev (H1 & H2 & _). auto.
Qed.

(** X6: when the parameters of a dataset reader have no [variable] entry,
    every request that [read(columns)] sends carries [variable=<name>] for
    a name of the structure that the column filter lets through; with a
    filter, a name of the filter. *)
Theorem dataset_requests_name_a_requested_variable
    (self : DatasetReader Client Metadata) (columns : option (list string)) :
  _params self !! "variable" = None ->
  Forall
    (fun ev =>
       exists name,
         _params (request_source ev) !! "variable" = Some name
         /\ (In name (dict_keys (data_vars (macro (structure self))))
             \/ In name (dict_keys (ds_coords (macro (structure self)))))
         /\ forall c, columns = Some c -> In name c)
    (trace (DatasetReader_read array_read self columns)).
Proof.
  intros Hnone.
  eapply Forall_impl; [apply DatasetReader_read_requests|].
  intros ev (_ & _ & name & Hname & Hskip & Hvar).
  exists name. rewrite Hvar, Hnone. split; [reflexivity|].
  split; [assumption|].
  intros c ->. now apply filtered_out_some.
Qed.









Lemma read_depends_on_filtered_names
    (self : DatasetReader Client Metadata) (c1 c2 : option (list string)) :
  (forall k,
     In k (dict_keys (data_vars (macro (structure self))))
     \/ In k (dict_keys (ds_coords (macro (structure self)))) ->
     filtered_out c1 k = filtered_out c2 k) ->
  DatasetReader_read array_read self c1
  = DatasetReader_read array_read self c2.
Proof.
  intros Hsame. unfold DatasetReader_read.
  assert (DatasetReader_build_data_vars self (macro (structure self)) c1
          = DatasetReader_build_data_vars self (macro (structure self)) c2)
    as ->.
  { unfold DatasetReader_build_data_vars. apply build_loop_ext.
    intros k Hk. apply Hsame. auto. }
  assert (DatasetReader_build_coords self (macro (structure self)) c1
          = DatasetReader_build_coords self (macro (structure self)) c2)
    as ->.
  { unfold DatasetReader_build_coords. apply build_loop_ext.
    intros k Hk. apply Hsame. auto. }
  reflexivity.
Qed.

(** X8: [read(columns)] of a dataset reader depends on which names are in
    [columns] only: two column lists with the same names, in any order and
    with any repetition, give the same requests and the same result. *)
Theorem read_takes_columns_as_a_set (self : DatasetReader Client Metadata)
    (c1 c2 : list string) :
  (forall k, In k c1 <-> In k c2) ->
  DatasetReader_read array_read self (Some c1)
  = DatasetReader_read array_read self (Some c2).
Proof.
  intros Hsame. apply read_depends_on_filtered_names. intros k _.
  destruct (filtered_out (Some c1) k) eqn:H1,
    (filtered_out (Some c2) k) eqn:H2; try reflexivity.
  - apply filtered_out_some, Hsame, filtered_out_some in H2. congruence.
  - apply filtered_out_some, Hsame, filtered_out_some in H1. congruence.
Qed.

(** X9: a column list that names every data variable and every coordinate
    of the structure gives what [read()] without a filter gives. *)
Theorem read_all_columns_is_read_unfiltered
    (self : DatasetReader Client Metadata) (columns : list string) :
  (forall k,
     In k (dict_keys (data_vars (macro (structure self)))) -> In k columns) ->
  (forall k,
     In k (dict_keys (ds_coords (macro (structure self)))) -> In k columns) ->
  DatasetReader_read array_read self (Some columns)
  = DatasetReader_read array_read self None.
Proof.
  intros Hdv Hcs. apply read_depends_on_filtered_names. intros k Hk.
  simpl. apply filtered_out_some. destruct Hk; auto.
Qed.


Lemma build_loop_keys_exact {S V : Type} (skip : string -> bool)
    (make : string -> S -> V) (items : list (string * S)) :
  List.NoDup (dict_keys items) ->
  dict_keys
    (fold_left
       (fun acc '(name, s) =>
          if skip name then acc else dict_setitem name (make name s) acc)
       items [])
  = List.filter (fun name => negb (skip name)) (dict_keys items).
Proof.
  intros Hnd. rewrite (build_loop_nodup skip make items []);
    [| assumption | intros k _ []].
  simpl. clear Hnd. induction items as [|[name s] items IH]; [reflexivity|].
  simpl. destruct (skip name); simpl; [exact IH | now rewrite IH].
Qed.


(** X11: indexing a dataset reader with the name of a coordinate that is
    not a data variable reads that coordinate alone: [read(columns=[c])]
    sends one request, and the Dataset it returns has no data variable and
    the single coordinate [c]. *)
Theorem read_of_a_coordinate_name (self : DatasetReader Client Metadata)
    (c : string) :
  In c (dict_keys (ds_coords (macro (structure self)))) ->
  ~ In c (dict_keys (data_vars (macro (structure self)))) ->
  length (trace (DatasetReader_read array_read self (Some [c]))) = 1%nat
  /\ forall t d,
       DatasetReader_read array_read self (Some [c]) = (t, Returns d) ->
       dataset_data_vars d = [] /\ dict_keys (dataset_coords d) = [c].
Proof.
  intros Hc Hnot.
  assert (DatasetReader_build_data_vars self (macro (structure self))
            (Some [c]) = []) as Hdv.
  { unfold DatasetReader_build_data_vars. apply build_loop_skip_all.
    intros k Hk. destruct (filtered_out (Some [c]) k) eqn:Hf; [reflexivity|].
    apply filtered_out_some in Hf. destruct Hf as [<-|[]]. contradiction. }
  pose proof (build_coords_single self (macro (structure self)) c Hc) as Hcs.
  unfold DatasetReader_read. rewrite Hdv.
  destruct (DatasetReader_build_coords self (macro (structure self))
              (Some [c])) as [|[k r] [|? ?]]; try discriminate Hcs.
  injection Hcs as ->.
  cbn [read_items]. rewrite bind_ret_l, VariableReader_read_eq. split.
  - destruct (array_read _ _); reflexivity.
  - intros t d H.
    destruct (array_read _ _); simpl in H; inversion H; subst.
    split; reflexivity.
Qed.

(** X12: [read_block] on a coordinate reader taken from [coords] of a
    data-array reader sends one block request, for the array of that
    coordinate and with the parameters that [coords] gave it, and returns
    or raises what the leaf reader does. *)
Theorem coords_enable_read_block (self : DataArrayReader Client Metadata)
    (m : list (string * VariableReader Client Metadata)) (name : string)
    (source : VariableReader Client Metadata) (block : list Z)
    (slice : slice_arg) :
  DataArrayReader_coords self = ret m ->
  In (name, source) m ->
  exists vs,
    In (name, vs) (da_coords (macro (structure self)))
    /\ VariableReader_read_block array_read_block source block slice
       = ([ReadBlockRequest
             (VariableReader_array_source
                (DataArrayReader_coord_source self name vs))
             block slice],
          array_read_block
            (VariableReader_array_source
               (DataArrayReader_coord_source self name vs))
            block slice).
Proof.
  intros Hm Hin. unfold DataArrayReader_coords, ret in Hm.
  injection Hm as <-.
  pose proof
    (build_loop_In (fun _ => false)
       (fun name s => DataArrayReader_coord_source self name s)
       (da_coords (macro (structure self))) [] name source) as H.
  cbv beta iota in H. destruct (H Hin) as [[]|(vs & Hvs & _ & ->)].
  exists vs. split; [exact Hvs | reflexivity].
Qed.

End Requests.

(** X16: for a structure whose data variables have no repeated name,
    iterating a dataset reader yields the keys of the mapping that its
    [data_vars] accessor returns, in the same order. *)
Theorem iter_lists_the_data_vars_accessor {Client Metadata : Type}
    (self : DatasetReader Client Metadata) :
  List.NoDup (dict_keys (data_vars (macro (structure self)))) ->
  exists m,
    DatasetReader_data_vars self = ret m
    /\ DatasetReader_iter self = ret (dict_keys m).
Proof.
  intros Hnd. eexists. split; [reflexivity|].
  unfold DatasetReader_iter, DatasetReader_build_data_vars. f_equal.
  rewrite build_loop_keys_exact by assumption.
  simpl. clear Hnd.
  induction (dict_keys (data_vars (macro (structure self)))) as [|k l IH];
    [reflexivity|].
  simpl. now rewrite <- IH.
Qed.

(** ** The column type JSONList and the mixin Timestamped *)

Section OrmProperties.

Variable json_dumps : py_value -> string.
Variable json_loads : string -> orm_outcome py_value.
Variable py_repr : py_value -> string.

(** X13: [process_bind_param] raises ValueError for every value that is not
    a list, [None] included; what it returns is never [None] but the JSON
    text of a list, so the test [value is not None] after the type check
    never fails. *)
Theorem bind_param_accepts_lists_only (value : py_value) :
  (is_list value = false ->
   JSONList_process_bind_param json_dumps value
   = OrmRaises (ValueError "JSONList must be given a literal `list` type."))
  /\ (forall r,
        JSONList_process_bind_param json_dumps value = OrmReturns r ->
        exists items,
          value = VList items /\ r = Some (json_dumps (VList items))).
Proof.
  unfold JSONList_process_bind_param. split.
  - intros ->. reflexivity.
  - intros r H. destruct value; simpl in H; try discriminate H.
    injection H as <-. eexists. split; reflexivity.
Qed.

(** X14: a list that [json.loads] reads back from its [json.dumps] text
    comes back from the database as it was bound: [process_result_value]
    undoes [process_bind_param]; a NULL becomes [None] without decoding. *)
Theorem result_value_undoes_bind_param (items : list py_value) :
  json_loads (json_dumps (VList items)) = OrmReturns (VList items) ->
  (exists text,
     JSONList_process_bind_param json_dumps (VList items)
     = OrmReturns (Some text)
     /\ JSONList_process_result_value json_loads (Some text)
        = OrmReturns (VList items))
  /\ JSONList_process_result_value json_loads None = OrmReturns VNone.
Proof.
  intros Hjson. split; [|reflexivity].
  exists (json_dumps (VList items)). split; [reflexivity | exact Hjson].
Qed.

(** X15: an attribute whose name starts with an underscore does not show in
    [__repr__]: with or without it, wherever it is in [__dict__], the text
    is the same. *)
Theorem repr_hides_private_attributes (type_name : string)
    (before after : list (string * py_value)) (key : string)
    (value : py_value) :
  String.prefix "_" key = true ->
  Timestamped_repr py_repr type_name (before ++ (key, value) :: after)
  = Timestamped_repr py_repr type_name (before ++ after).
Proof.
  intros Hkey. unfold Timestamped_repr.
  rewrite !List.filter_app. cbn [List.filter]. rewrite Hkey. reflexivity.
Qed.

End OrmProperties.

(** ** The sample service, continued *)

Lemma read_returns_after_these_requests_witness :
  length
    (trace (DataArrayReader_read echo_read temp_reader (SliceOne slice_0_5)))
  = 3%nat.
Proof.
  exact (proj2 (proj2
           (read_returns_after_these_requests echo_read temp_reader
              (SliceOne slice_0_5)
              (trace
                 (DataArrayReader_read echo_read temp_reader
                    (SliceOne slice_0_5)))
              (returned empty_DataArray
                 (DataArrayReader_read echo_read temp_reader
                    (SliceOne slice_0_5)))
              eq_refl))).
Defined.

Lemma read_returns_labelled_data_witness :
  dataarray_name
    (returned empty_DataArray
       (DataArrayReader_read echo_read temp_reader (SliceOne slice_0_5)))
  = "temp".
Proof.
  exact (proj1
           (read_returns_labelled_data echo_read temp_reader
              (SliceOne slice_0_5)
              (trace
                 (DataArrayReader_read echo_read temp_reader
                    (SliceOne slice_0_5)))
              (returned empty_DataArray
                 (DataArrayReader_read echo_read temp_reader
                    (SliceOne slice_0_5)))
              eq_refl)).
Defined.



Lemma dataset_requests_name_a_requested_variable_witness :
  _params dataset_reader !! "variable" = None
  /\ Forall
       (fun ev =>
          exists name,
            _params (request_source ev) !! "variable" = Some name
            /\ (In name
                  (dict_keys (data_vars (macro (structure dataset_reader))))
                \/ In name
                     (dict_keys
                        (ds_coords (macro (structure dataset_reader)))))
            /\ forall c, Some ["temp"] = Some c -> In name c)
       (trace (DatasetReader_read echo_read dataset_reader (Some ["temp"]))).
Proof.
  split; [reflexivity|].
  apply (dataset_requests_name_a_requested_variable echo_read dataset_reader
           (Some ["temp"])).
  reflexivity.
Defined.

Lemma read_takes_columns_as_a_set_witness :
  DatasetReader_read echo_read dataset_reader (Some ["temp"; "x"])
  = DatasetReader_read echo_read dataset_reader (Some ["x"; "temp"; "x"]).
Proof.
  apply (read_takes_columns_as_a_set echo_read dataset_reader).
  intros k. simpl. tauto.
Defined.

Lemma read_all_columns_is_read_unfiltered_witness :
  DatasetReader_read echo_read dataset_reader (Some ["y"; "x"; "temp"])
  = DatasetReader_read echo_read dataset_reader None.
Proof.
  apply (read_all_columns_is_read_unfiltered echo_read dataset_reader).
  - intros k. simpl. tauto.
  - intros k. simpl. tauto.
Defined.


Lemma read_of_a_coordinate_name_witness :
  length (trace (DatasetReader_read echo_read dataset_reader (Some ["x"])))
  = 1%nat.
Proof.
  apply (read_of_a_coordinate_name echo_read dataset_reader "x").
  - simpl. left. reflexivity.
  - simpl. intros [H|[]]. discriminate H.
Defined.

Lemma coords_enable_read_block_witness :
  exists vs,
    In ("x", vs) (da_coords (macro (structure temp_reader)))
    /\ VariableReader_read_block echo_read_block
         (DataArrayReader_coord_source temp_reader "x"
            (sample_variable ["x"] [10]))
         [0] SliceNone
       = ([ReadBlockRequest
             (VariableReader_array_source
                (DataArrayReader_coord_source temp_reader "x" vs))
             [0] SliceNone],
          echo_read_block
            (VariableReader_array_source
               (DataArrayReader_coord_source temp_reader "x" vs))
            [0] SliceNone).
Proof.
  apply (coords_enable_read_block echo_read_block temp_reader
           (returned [] (DataArrayReader_coords temp_reader))).
  - reflexivity.
  - left. reflexivity.
Defined.

Lemma bind_param_accepts_lists_only_witness :
  JSONList_process_bind_param sample_dumps VNone
  = OrmRaises (ValueError "JSONList must be given a literal `list` type.").
Proof.
  apply (proj1 (bind_param_accepts_lists_only sample_dumps VNone)).
  reflexivity.
Defined.

Lemma result_value_undoes_bind_param_witness :
  exists text,
    JSONList_process_bind_param sample_dumps (VList []) = OrmReturns (Some text)
    /\ JSONList_process_result_value sample_loads (Some text)
       = OrmReturns (VList []).
Proof.
  exact (proj1
           (result_value_undoes_bind_param sample_dumps sample_loads []
              eq_refl)).
Defined.

Lemma repr_hides_private_attributes_witness :
  Timestamped_repr sample_repr "Role"
    ([("id", VInt 1)] ++ [("_sa_instance_state", VNone)])
  = "Role(id=1)".
Proof.
  rewrite (repr_hides_private_attributes sample_repr "Role" [("id", VInt 1)]
             [] "_sa_instance_state" VNone eq_refl).
  reflexivity.
Defined.

Lemma iter_lists_the_data_vars_accessor_witness :
  DatasetReader_iter dataset_reader
  = ret (dict_keys
           (returned [] (DatasetReader_data_vars dataset_reader))).
Proof.
  destruct (iter_lists_the_data_vars_accessor dataset_reader)
    as (m & Hm & Hiter).
  - constructor; [simpl; tauto | constructor].
  - unfold DatasetReader_data_vars, ret in Hm. injection Hm as <-.
    exact Hiter.
Defined.
